(** * Bandpass solution flagging (flint): codec, flaggers and orchestration

    A shallow embedding of the parts of [flint/calibrate/aocalibrate.py] and
    [flint/bptools/preflagger.py] that load, save, inspect and flag
    ao-calibrate solution files, together with the properties established
    about them.

    Conventions.
    - A Python exception is a constructor of [exn]; a call that may raise
      returns a [result]; code that also touches the file system lives in
      the monad [M], whose state (the files on disk) survives an exception.
    - [float] is IEEE-754 binary64 (the kernel's primitive floats): Python
      [float] and numpy [float64] scalars.
    - A stored [complex128] element is a pair of 64-bit words, the bit
      patterns numpy keeps in memory and writes to disk.
    - numpy, scipy and matplotlib routines whose numerical content is outside
      this repository are operations of a [NumLib] record. *)

From Stdlib Require Import ZArith List Bool Lia Floats DecimalString.
From Stdlib Require Import Strings.Byte.
From stdpp Require Import base option list strings gmap.

Local Open Scope Z_scope.

(** ** Exceptions and results *)

(** Modelled from the spec: [flint.exceptions] is not among the sources.
    [PhaseOutlierFitError] is the package's own exception class for a fit
    that failed (the spec's FitConvergenceError); it is a class of its own,
    so an [except PhaseOutlierFitError] clause catches none of the built-in
    exceptions below. *)
Inductive exn : Type :=
| AssertionError
| IndexError
| ValueError
| TypeError
| RuntimeError
| StructError            (* struct.error *)
| PhaseOutlierFitError.  (* flint.exceptions.PhaseOutlierFitError *)

Definition exn_eqb (a b : exn) : bool :=
  match a, b with
  | AssertionError, AssertionError | IndexError, IndexError
  | ValueError, ValueError | TypeError, TypeError
  | RuntimeError, RuntimeError | StructError, StructError
  | PhaseOutlierFitError, PhaseOutlierFitError => true
  | _, _ => false
  end.

Inductive result (A : Type) : Type :=
| Ok (a : A)
| Err (e : exn).
Arguments Ok {A} a.
Arguments Err {A} e.

Definition rbind {A B} (r : result A) (k : A -> result B) : result B :=
  match r with
  | Ok a => k a
  | Err e => Err e
  end.

Notation "'let?' x ':=' c 'in' k" := (rbind c (fun x => k))
  (at level 10, x pattern, c at level 100, k at level 200).

(** [assert cond] *)
Definition py_assert (cond : bool) : result unit :=
  if cond then Ok tt else Err AssertionError.

(** ** Files on disk and the state-and-exception monad *)

Abbreviation filesystem := (gmap string (list byte)).

Definition M (A : Type) : Type := filesystem -> filesystem * result A.

Definition ret {A} (a : A) : M A := fun fs => (fs, Ok a).
Definition raise {A} (e : exn) : M A := fun fs => (fs, Err e).
Definition lift {A} (r : result A) : M A := fun fs => (fs, r).

Definition bind {A B} (m : M A) (k : A -> M B) : M B :=
  fun fs =>
    match m fs with
    | (fs', Ok a) => k a fs'
    | (fs', Err e) => (fs', Err e)
    end.

Notation "'let*' x ':=' c 'in' k" := (bind c (fun x => k))
  (at level 10, x pattern, c at level 100, k at level 200).

(** [try: body except cls: handler]: only an exception of class [cls] is
    handled; whatever the body already wrote to disk stays written. *)
Definition try_except {A} (body : M A) (cls : exn) (handler : M A) : M A :=
  fun fs =>
    match body fs with
    | (fs', Ok a) => (fs', Ok a)
    | (fs', Err e) => if exn_eqb e cls then handler fs' else (fs', Err e)
    end.

(** ** Little-endian integers *)

Definition byte_of_Z (z : Z) : byte :=
  match Byte.of_N (Z.to_N (z mod 256)) with
  | Some b => b
  | None => x00
  end.

Definition Z_of_byte (b : byte) : Z := Z.of_N (Byte.to_N b).

Fixpoint le_bytes (n : nat) (z : Z) : list byte :=
  match n with
  | O => []
  | S k => byte_of_Z z :: le_bytes k (z / 256)
  end.

Fixpoint le_value (bs : list byte) : Z :=
  match bs with
  | [] => 0
  | b :: rest => Z_of_byte b + 256 * le_value rest
  end.

(** Two's complement reading of a [w]-bit word. *)
Definition to_signed (w : Z) (u : Z) : Z :=
  if u <? 2 ^ (w - 1) then u else u - 2 ^ w.

(** Wrap-around of a product accumulated in [int64]. *)
Definition wrap_int64 (z : Z) : Z := to_signed 64 (z mod 2 ^ 64).

(** ** numpy arrays and complex128 elements *)

Record complex128 : Type := Complex { re : Z; im : Z }.

Record ndarray (A : Type) : Type := NdArray { shape : list Z; data : list A }.
Arguments NdArray {A} shape data.
Arguments shape {A} n.
Arguments data {A} n.

(** [np.prod(shape)] *)
Definition np_prod (dims : list Z) : Z := fold_right Z.mul 1 dims.

(** Exponent field all ones: infinity or NaN. *)
Definition f64_isfinite (w : Z) : bool :=
  negb (Z.land (Z.shiftr w 52) 2047 =? 2047).

(** [np.isfinite] on a complex element: both parts finite. *)
Definition isfinite_c (c : complex128) : bool :=
  f64_isfinite (re c) && f64_isfinite (im c).

(** The quiet NaN numpy stores for [np.nan], and [complex(np.nan)]. *)
Definition f64_nan : Z := 0x7ff8000000000000.
Definition nan_c : complex128 := Complex f64_nan 0.

(** 16 bytes per element: real part, then imaginary part. *)
Definition c16_bytes (c : complex128) : list byte :=
  le_bytes 8 (re c) ++ le_bytes 8 (im c).

(** [ndarray.tofile]: the raw elements in row-major order. *)
Definition tofile (a : ndarray complex128) : list byte :=
  concat (map c16_bytes (data a)).

(** [np.fromfile(f, dtype="<i4", count=n)]: up to [n] whole items; returns
    the items and the unread rest of the stream. *)
Fixpoint fromfile_i4 (n : nat) (bs : list byte) : list Z * list byte :=
  match n with
  | O => ([], bs)
  | S k =>
      match bs with
      | b0 :: b1 :: b2 :: b3 :: rest =>
          let '(xs, r) := fromfile_i4 k rest in
          (to_signed 32 (le_value [b0; b1; b2; b3]) :: xs, r)
      | _ => ([], bs)
      end
  end.

Fixpoint fromfile_c16_nat (n : nat) (bs : list byte) : list complex128 :=
  match n with
  | O => []
  | S k =>
      match bs with
      | r0 :: r1 :: r2 :: r3 :: r4 :: r5 :: r6 :: r7 ::
        i0 :: i1 :: i2 :: i3 :: i4 :: i5 :: i6 :: i7 :: rest =>
          Complex (le_value [r0; r1; r2; r3; r4; r5; r6; r7])
                  (le_value [i0; i1; i2; i3; i4; i5; i6; i7])
          :: fromfile_c16_nat k rest
      | _ => []
      end
  end.

(** [np.fromfile(f, dtype="<c16", count=c)]: a negative count reads every
    whole item that is left. The buffer numpy reserves for [count] items
    before it reads is taken to be available; the [MemoryError] of a
    reservation that fails is not part of this model. *)
Definition fromfile_c16 (count : Z) (bs : list byte) : list complex128 :=
  if count <? 0 then fromfile_c16_nat (length bs / 16)%nat bs
  else fromfile_c16_nat (Z.to_nat count) bs.

(** [a.reshape(dims)] on a flat array of [size] items: the resulting shape.
    One negative entry stands for the dimension to be inferred. *)
Definition np_reshape (size : Z) (dims : list Z) : result (list Z) :=
  match List.filter (fun d => d <? 0) dims with
  | [] => if np_prod dims =? size then Ok dims else Err ValueError
  | [_] =>
      let known := np_prod (List.filter (fun d => 0 <=? d) dims) in
      if known =? 0 then Err ValueError
      else if size mod known =? 0
           then Ok (map (fun d => if d <? 0 then size / known else d) dims)
           else Err ValueError
  | _ => Err ValueError
  end.

(** ** The solution file codec *)

Module AOSolutions.
Record t : Type := Build {
  path : string;
  nsol : Z;
  nant : Z;
  nchan : Z;
  npol : Z;
  bandpass : ndarray complex128
}.
End AOSolutions.

(** b"MWAOCAL\0" *)
Definition header_intro : list byte :=
  [x4d; x57; x41; x4f; x43; x41; x4c; x00].

(** One [I] field of [struct.pack]: an unsigned 32-bit integer. *)
Definition pack_I (z : Z) : result (list byte) :=
  if (0 <=? z) && (z <? 2 ^ 32) then Ok (le_bytes 4 z) else Err StructError.

(** [struct.pack("8s6I2d", s, i1, .., i6, d1, d2)]: the string field is cut
    or zero-padded to eight bytes; the six integers end at offset 32, so the
    doubles need no alignment padding. The doubles are given as words. *)
Definition struct_pack_8s6I2d (s : list byte) (ints : list Z) (d1 d2 : Z)
  : result (list byte) :=
  match ints with
  | [i1; i2; i3; i4; i5; i6] =>
      let? b1 := pack_I i1 in
      let? b2 := pack_I i2 in
      let? b3 := pack_I i3 in
      let? b4 := pack_I i4 in
      let? b5 := pack_I i5 in
      let? b6 := pack_I i6 in
      Ok (take 8 (s ++ replicate 8 x00)
            ++ b1 ++ b2 ++ b3 ++ b4 ++ b5 ++ b6
            ++ le_bytes 8 d1 ++ le_bytes 8 d2)
  | _ => Err StructError
  end.

(** [open(path, "wb")] creates or truncates the file. *)
Definition open_wb (p : string) : M unit :=
  fun fs => (<[p := []]> fs, Ok tt).

(** [out_file.write(bs)] appends to the file being written. *)
Definition file_write (p : string) (bs : list byte) : M unit :=
  fun fs => (<[p := default [] (fs !! p) ++ bs]> fs, Ok tt).

Definition save_aosolutions_file (aosolutions : AOSolutions.t) (output_path : string)
  : M string :=
  let* _ := open_wb output_path in
  let* header :=
    lift (struct_pack_8s6I2d header_intro
            [0;  (* file type *)
             0;  (* structure type *)
             AOSolutions.nsol aosolutions;
             AOSolutions.nant aosolutions;
             AOSolutions.nchan aosolutions;
             AOSolutions.npol aosolutions]
            0 0  (* time start and time end, both 0.0 *)) in
  let* _ := file_write output_path header in
  let* _ := file_write output_path (tofile (AOSolutions.bandpass aosolutions)) in
  ret output_path.

Definition load_aosolutions_file (solutions_path : string) : M AOSolutions.t :=
  fun fs =>
    match fs !! solutions_path with
    | None => (fs, Err AssertionError)
    | Some in_file =>
        let '(_junk, in_file) := fromfile_i4 2 in_file in
        let '(header, in_file) := fromfile_i4 10 in_file in
        (fs,
         match header !! 0%nat with
         | None => Err IndexError
         | Some file_type =>
             let? _ := py_assert (file_type =? 0) in
             match header !! 1%nat with
             | None => Err IndexError
             | Some structure_type =>
                 (* the source asserts on file_type here as well *)
                 let? _ := py_assert (file_type =? 0) in
                 match take 4 (drop 2 header) with
                 | [nsol; nant; nchan; npol] =>
                     let sol_shape := [nsol; nant; nchan; npol] in
                     let items :=
                       fromfile_c16 (wrap_int64 (np_prod sol_shape)) in_file in
                     let? shp := np_reshape (Z.of_nat (length items)) sol_shape in
                     Ok (AOSolutions.Build solutions_path nsol nant nchan npol
                           (NdArray shp items))
                 | _ => Err ValueError
                 end
             end
         end)
    end.


(** ** Well-formed solution sets

    What the codec needs of a solution set: every extent is a positive
    [int32], the array has that shape and holds that many elements, and every
    stored word is a 64-bit pattern. *)

Definition word64 (w : Z) : Prop := 0 <= w < 2 ^ 64.

Definition valid_element (c : complex128) : Prop := word64 (re c) /\ word64 (im c).

Definition extent (n : Z) : Prop := 1 <= n < 2 ^ 31.

Record valid_solutions (x : AOSolutions.t) : Prop := {
  valid_nsol : extent (AOSolutions.nsol x);
  valid_nant : extent (AOSolutions.nant x);
  valid_nchan : extent (AOSolutions.nchan x);
  valid_npol : extent (AOSolutions.npol x);
  valid_shape :
    shape (AOSolutions.bandpass x) =
    [AOSolutions.nsol x; AOSolutions.nant x; AOSolutions.nchan x; AOSolutions.npol x];
  valid_size :
    Z.of_nat (length (data (AOSolutions.bandpass x))) =
    np_prod (shape (AOSolutions.bandpass x));
  valid_addressable : np_prod (shape (AOSolutions.bandpass x)) < 2 ^ 63;
  valid_words : Forall valid_element (data (AOSolutions.bandpass x))
}.

(** What [save_aosolutions_file] leaves on disk. *)
Definition file_image (x : AOSolutions.t) : list byte :=
  header_intro
    ++ le_bytes 4 0 ++ le_bytes 4 0
    ++ le_bytes 4 (AOSolutions.nsol x) ++ le_bytes 4 (AOSolutions.nant x)
    ++ le_bytes 4 (AOSolutions.nchan x) ++ le_bytes 4 (AOSolutions.npol x)
    ++ le_bytes 8 0 ++ le_bytes 8 0
    ++ tofile (AOSolutions.bandpass x).

(** The [int32] stored at byte offset [off] of a file, if the file is long
    enough to hold it. *)
Definition field_i4 (off : nat) (bs : list byte) : option Z :=
  match take 4 (drop off bs) with
  | [b0; b1; b2; b3] => Some (to_signed 32 (le_value [b0; b1; b2; b3]))
  | _ => None
  end.

(** A one-element solution file whose first eight bytes are not the magic
    tag but whose type fields are both 0. *)
Definition file_without_magic : list byte :=
  [x4e; x4f; x54; x4d; x41; x47; x49; x43]        (* b"NOTMAGIC" *)
    ++ le_bytes 4 0 ++ le_bytes 4 0
    ++ le_bytes 4 1 ++ le_bytes 4 1 ++ le_bytes 4 1 ++ le_bytes 4 1
    ++ le_bytes 8 0 ++ le_bytes 8 0
    ++ c16_bytes (Complex 0x3ff0000000000000 0).  (* 1+0j *)

(** ** Floats, masks and counting *)

(** Conversion of an integer to [float64], rounding to nearest even. *)
Definition Z2float (z : Z) : float :=
  SF2Prim (binary_normalize prec emax z 0 false).

(** The doubles written [0.1] and [0.8] in the source. *)
Definition float_0_1 : float := 0x1.999999999999ap-4%float.
Definition float_0_8 : float := 0x1.999999999999ap-1%float.

(** [np.pi] *)
Definition np_pi : float := 0x1.921fb54442d18p+1%float.

(** [np.sum] of a boolean array: how many entries are [True]. *)
Definition count_true (l : list bool) : Z :=
  Z.of_nat (length (List.filter (fun b => b) l)).

(** [np.arange(n)] *)
Definition arange (n : nat) : list Z := map Z.of_nat (seq 0 n).

(** [a[mask]] for a boolean mask as long as [a]. *)
Fixpoint mask_select {A} (mask : list bool) (a : list A) : list A :=
  match mask, a with
  | b :: mask', x :: a' =>
      if b then x :: mask_select mask' a' else mask_select mask' a'
  | _, _ => []
  end.

(** ** Python string formatting *)

Definition decimal (n : Z) : string :=
  DecimalString.NilZero.string_of_uint (N.to_uint (Z.to_N n)).

(** [format(v, "02d")]. [None] has no such format: [TypeError]. *)
Definition format_02d (v : option Z) : result string :=
  match v with
  | None => Err TypeError
  | Some z =>
      let digits := decimal (Z.abs z) in
      let sign := if z <? 0 then "-"%string else ""%string in
      let width := (String.length sign + String.length digits)%nat in
      let pad := if (width <? 2)%nat then "0"%string else ""%string in
      Ok (sign +:+ pad +:+ digits)%string
  end.

(** The integer nearest to [100 * m * 2^e], ties to even. *)
Definition round_hundredths (m : positive) (e : Z) : Z :=
  let n := 100 * Z.pos m in
  if 0 <=? e then n * 2 ^ e
  else
    let d := 2 ^ (- e) in
    let q := n / d in
    let r := n mod d in
    if 2 * r <? d then q
    else if d <? 2 * r then q + 1
    else if Z.even q then q else q + 1.

(** [format(x, "2.2f")]: two decimals of the exact value, correctly rounded. *)
Definition format_2_2f (x : float) : string :=
  match Prim2SF x with
  | S754_nan => "nan"
  | S754_infinity s => if s then "-inf" else "inf"
  | S754_zero s => if s then "-0.00" else "0.00"
  | S754_finite s m e =>
      let h := round_hundredths m e in
      let sign := if s then "-"%string else ""%string in
      let units := decimal (h / 100) in
      let pad := if h mod 100 <? 10 then "0"%string else ""%string in
      let cents := decimal (h mod 100) in
      (sign +:+ units +:+ "." +:+ pad +:+ cents)%string
  end.

(** ** Calling a Python function with keyword arguments *)

(** Binding the arguments of a call to the parameters of the callee, of
    which the first [required] have no default. Too many positional
    arguments, a keyword that names no parameter, a parameter given twice
    and a required parameter left out are each a [TypeError]. *)
Definition bind_arguments (params : list string) (required : nat)
    (npos : nat) (keywords : list string) : result unit :=
  if (length params <? npos)%nat then Err TypeError
  else if existsb (fun k => negb (existsb (String.eqb k) params)) keywords
  then Err TypeError
  else if existsb (fun k => existsb (String.eqb k) (take npos params)) keywords
  then Err TypeError
  else if existsb (fun q => negb (existsb (String.eqb q) keywords))
            (drop npos (take required params))
  then Err TypeError
  else Ok tt.

(** [numpy.polyfit(x, y, deg, rcond=None, full=False, w=None, cov=False)] *)
Definition polyfit_parameters : list string :=
  ["x"; "y"; "deg"; "rcond"; "full"; "w"; "cov"]%string.

Definition keyword (name : string) (kwargs : list (string * Z)) : option Z :=
  snd <$> List.find (fun kv => String.eqb name (fst kv)) kwargs.

(** ** Numerical routines of numpy and scipy *)

(** Statistics over a one-dimensional [float64] array. *)
Class Statistics : Type := {
  np_median : list float -> float;
  np_nanmean : list float -> float;
  np_nanstd : list float -> float;
  np_mean : list float -> float;
  np_std : list float -> float
}.

(** Complex arithmetic on stored elements, elementary functions and fits. *)
Class Numerics : Type := {
  c_of_float : float -> complex128;   (* a real scalar taken as complex *)
  c_of_int : Z -> complex128;
  c_1j : complex128;
  c_add : complex128 -> complex128 -> complex128;
  c_mul : complex128 -> complex128 -> complex128;
  c_div : complex128 -> complex128 -> complex128;
  np_exp : complex128 -> complex128;
  np_angle : complex128 -> float;
  np_abs : complex128 -> float;
  (* scipy.optimize.curve_fit(f, xdata, ydata, p0)[0]; raises when the
     least-squares optimiser gives up *)
  curve_fit :
    (list Z -> float -> float -> list float) ->
    list Z -> list float -> float * float -> result (float * float);
  (* numpy.polyfit(x, y, deg) and numpy.polyval(p, x) *)
  np_polyfit : list Z -> list float -> Z -> result (list float);
  np_polyval : list float -> list Z -> list float
}.

(** ** preflagger.py *)

Module PhaseOutlierResults.
Record t : Type := Build {
  complex_gains : list complex128;
  init_model_gains : list complex128;
  fit_model_gains : list complex128;
  init_model_params : float * float;
  fit_model_params : float * float;
  outlier_mask : list bool;
  unwrapped_residual_mean : float;
  unwrapped_residual_std : float;
  flag_cut : float
}.
End PhaseOutlierResults.

(** matplotlib: writes the diagnostic figure and returns its path. *)
Class Plotting : Type := {
  plot_phase_outlier :
    PhaseOutlierResults.t -> string -> option string -> M string;
  plot_solutions : string -> option Z -> M (list string)
}.

Section Preflagger.
Context {stats : Statistics} {num : Numerics} {plt : Plotting}.

Definition complex_gain_model (xs : list Z) (gradient phase_offset : float)
  : list complex128 :=
  map (fun x =>
         np_exp
           (c_add
              (c_mul
                 (c_mul
                    (c_mul (c_mul c_1j (c_of_float 2.0%float)) (c_of_float np_pi))
                    (c_of_float gradient))
                 (c_of_int x))
              (c_mul (c_of_float phase_offset) c_1j)))
      xs.

Definition fit_complex_gain_model (xs : list Z) (gradient phase_offset : float)
  : list float :=
  map np_angle (complex_gain_model xs gradient phase_offset).

(** The final cut of [flag_outlier_phase], from the residual phases on:
    the outlier mask with the centre and the spread it was cut at. *)
Definition phase_outlier_cut (unwrapped_residuals : list float)
    (flag_cut : float) (use_mad : bool) : list bool * float * float :=
  let unwrapped_residuals_mask := map is_finite unwrapped_residuals in
  let valid_residuals := mask_select unwrapped_residuals_mask unwrapped_residuals in
  let unwrapped_residual_median := np_median valid_residuals in
  let unwrapped_residual_mad :=
    np_median
      (map (fun r => abs (r - unwrapped_residual_median)%float) valid_residuals) in
  let unwrapped_residual_mean := np_nanmean unwrapped_residuals in
  let unwrapped_residual_std := np_nanstd unwrapped_residuals in
  let '(m, s) :=
    if use_mad then (unwrapped_residual_median, unwrapped_residual_mad)
    else (unwrapped_residual_mean, unwrapped_residual_std) in
  let final_mask :=
    map (fun r => is_finite r && (abs r <? m + flag_cut * s)%float)
      unwrapped_residuals in
  (map negb final_mask, m, s).

(** The centre and the spread [phase_outlier_cut] cuts at. *)
Definition cut_centre (residuals : list float) (use_mad : bool) : float :=
  let valid := mask_select (map is_finite residuals) residuals in
  if use_mad then np_median valid else np_nanmean residuals.

Definition cut_spread (residuals : list float) (use_mad : bool) : float :=
  let valid := mask_select (map is_finite residuals) residuals in
  if use_mad
  then np_median (map (fun r => abs (r - np_median valid)%float) valid)
  else np_nanstd residuals.

(** The residual phases of a result, as [plot_phase_outlier] recomputes
    them: the angle of [complex_gains / init_model_gains / fit_model_gains]. *)
Definition residual_phases (res : PhaseOutlierResults.t) : list float :=
  map np_angle
    (zip_with c_div
       (zip_with c_div (PhaseOutlierResults.complex_gains res)
          (PhaseOutlierResults.init_model_gains res))
       (PhaseOutlierResults.fit_model_gains res)).

(** Step one of [flag_outlier_phase]: the initial guess [init_p0] of the
    ramp, the model gains it gives and the gains unwrapped by that model. *)
Definition initial_unwrap (complex_gains : list complex128)
  : result ((float * float) * list complex128 * list complex128) :=
  let idxs := arange (length complex_gains) in
  let complex_mask := map isfinite_c complex_gains in
  let gain_angles := map np_angle complex_gains in
  let? init_phase_offset :=
    match mask_select complex_mask gain_angles with
    | first :: _ => Ok first
    | [] => Err IndexError
    end in
  (* dividing by run is not strictly needed at the moment *)
  let init_gradients :=
    zip_with div
      (zip_with sub (drop 1 gain_angles) (removelast gain_angles))
      (map Z2float (zip_with Z.sub (drop 1 idxs) (removelast idxs))) in
  (* the second half of this mask excludes moments where the phase wraps *)
  let init_gradients_mask :=
    map (fun g => is_finite g && (abs g <? np_pi / 2)%float) init_gradients in
  let init_gradient := np_median (mask_select init_gradients_mask init_gradients) in
  let init_p0 := ((init_gradient / (2.0 * np_pi))%float, init_phase_offset) in
  let init_model_gains := complex_gain_model idxs (fst init_p0) (snd init_p0) in
  (* the initial guess model is used to unwrap the data *)
  let unwrapped_complex_gains := zip_with c_div complex_gains init_model_gains in
  Ok (init_p0, init_model_gains, unwrapped_complex_gains).

(** The call of [curve_fit] in [flag_outlier_phase]: the ramp model against
    the phase of the unwrapped gains, on the finite samples, seeded at
    [p0 = [0, 0]]. *)
Definition fit_phase_ramp (complex_gains unwrapped_complex_gains : list complex128)
  : result (float * float) :=
  let idxs := arange (length complex_gains) in
  let complex_mask := map isfinite_c complex_gains in
  curve_fit fit_complex_gain_model
    (mask_select complex_mask idxs)
    (mask_select complex_mask (map np_angle unwrapped_complex_gains))
    (0%float, 0%float).

Definition flag_outlier_phase (complex_gains : list complex128)
    (flag_cut : float) (use_mad : bool)
    (plot_title : option string) (plot_path : option string)
  : M PhaseOutlierResults.t :=
  let idxs := arange (length complex_gains) in
  let* (init_p0, init_model_gains, unwrapped_complex_gains) :=
    lift (initial_unwrap complex_gains) in
  let* results := lift (fit_phase_ramp complex_gains unwrapped_complex_gains) in
  let fit_model_gains := complex_gain_model idxs (fst results) (snd results) in
  (* Make the residuals, and apply the final cuts. *)
  let unwrapped_residuals :=
    map np_angle (zip_with c_div unwrapped_complex_gains fit_model_gains) in
  let '(outlier_mask, m, s) :=
    phase_outlier_cut unwrapped_residuals flag_cut use_mad in
  let phase_outlier_results :=
    PhaseOutlierResults.Build complex_gains init_model_gains fit_model_gains
      init_p0 results outlier_mask m s flag_cut in
  let* _ :=
    match plot_path with
    | Some p => plot_phase_outlier phase_outlier_results p plot_title
    | None => ret ""%string
    end in
  ret phase_outlier_results.

(** [np.polyfit(x, y, **kwargs)] as [flag_mean_residual_amplitude] calls
    it: two positional arguments and the rest by keyword. *)
Definition call_np_polyfit (x : list Z) (y : list float)
    (kwargs : list (string * Z)) : result (list float) :=
  let? _ := bind_arguments polyfit_parameters 3 2 (map fst kwargs) in
  match keyword "deg" kwargs with
  | Some deg => np_polyfit x y deg
  | None => Err TypeError
  end.

Definition flag_mean_residual_amplitude (complex_gains : list complex128)
    (use_robust : bool) (polynomial_order : Z) : result bool :=
  let amplitudes := map np_abs complex_gains in
  let idxs := arange (length amplitudes) in
  let mask := map is_finite amplitudes in
  let? poly_coeffs :=
    call_np_polyfit (mask_select mask idxs) (mask_select mask amplitudes)
      [("order"%string, polynomial_order)] in
  let poly_vals := np_polyval poly_coeffs idxs in
  let residual := zip_with sub amplitudes poly_vals in
  (* Although the mask above should be sufficient, trust nothing *)
  let mask := map is_finite residual in
  let '(mean, deviation) :=
    if use_robust then
      let mean := np_median (mask_select mask residual) in
      let deviation := map (fun r => (abs r - mean)%float) residual in
      (mean, np_median (mask_select (map is_finite deviation) deviation))
    else
      (np_mean (mask_select mask residual), np_std (mask_select mask residual)) in
  Ok ((float_0_1 <? abs mean)%float || (0.5 <? deviation)%float).

End Preflagger.

(** [flags_over_threshold]: [frac_flagged > thresh], once the log line has
    been formatted. *)
Definition flags_over_threshold (flags : ndarray bool) (thresh : float)
    (ant_idx : option Z) : result bool :=
  let? _ := py_assert ((0.0 <=? thresh)%float && (thresh <=? 1.0)%float) in
  let number_flagged := count_true (data flags) in
  (* Use the shape in case a multi-dimensional array is passed in *)
  let total_flagged := np_prod (shape flags) in
  let frac_flagged := (Z2float number_flagged / Z2float total_flagged)%float in
  let thresh_str := ("Total flagged: " +:+ format_2_2f frac_flagged)%string in
  let? ant_str := format_02d ant_idx in
  let thresh_str := ("Antenna " +:+ ant_str +:+ " - " +:+ thresh_str)%string in
  (* logger.info(thresh_str) *)
  Ok (thresh <? frac_flagged)%float.

(** ** Indexing the four-dimensional bandpass array *)

(** An index along an axis of length [dim]; negative indices count from the
    end. *)
Definition np_index (dim i : Z) : result Z :=
  if (0 <=? i) && (i <? dim) then Ok i
  else if (- dim <=? i) && (i <? 0) then Ok (i + dim)
  else Err IndexError.

Definition dims4 {A} (a : ndarray A) : result (Z * Z * Z * Z) :=
  match shape a with
  | [d0; d1; d2; d3] => Ok (d0, d1, d2, d3)
  | _ => Err IndexError
  end.

(** Row-major position of element [(t, a, c, p)]. *)
Definition offset4 (d1 d2 d3 t a c p : Z) : nat :=
  Z.to_nat (((t * d1 + a) * d2 + c) * d3 + p).

Definition flat_get (l : list complex128) (i : nat) : complex128 :=
  default nan_c (l !! i).

(** [bandpass[time, ant, :, pol]] *)
Definition get_channels (bandpass : ndarray complex128) (time ant pol : Z)
  : result (list complex128) :=
  let? (d0, d1, d2, d3) := dims4 bandpass in
  let? t := np_index d0 time in
  let? a := np_index d1 ant in
  let? p := np_index d3 pol in
  Ok (map (fun c => flat_get (data bandpass) (offset4 d1 d2 d3 t a c p))
        (arange (Z.to_nat d2))).

(** [bandpass[time, ant]], the (channel, polarisation) plane of an antenna. *)
Definition get_antenna (bandpass : ndarray complex128) (time ant : Z)
  : result (ndarray complex128) :=
  let? (d0, d1, d2, d3) := dims4 bandpass in
  let? t := np_index d0 time in
  let? a := np_index d1 ant in
  Ok (NdArray [d2; d3]
        (take (Z.to_nat (d2 * d3))
           (drop (offset4 d1 d2 d3 t a 0 0) (data bandpass)))).

(** [plane[:, pol]] of a two-dimensional array. *)
Definition get_column (plane : ndarray complex128) (pol : Z)
  : result (list complex128) :=
  match shape plane with
  | [d2; d3] =>
      let? p := np_index d3 pol in
      Ok (map (fun c => flat_get (data plane) (Z.to_nat (c * d3 + p)))
            (arange (Z.to_nat d2)))
  | _ => Err IndexError
  end.

(** [bandpass[time]] *)
Definition get_time (bandpass : ndarray complex128) (time : Z)
  : result (ndarray complex128) :=
  let? (d0, d1, d2, d3) := dims4 bandpass in
  let? t := np_index d0 time in
  Ok (NdArray [d1; d2; d3]
        (take (Z.to_nat (d1 * d2 * d3))
           (drop (offset4 d1 d2 d3 t 0 0 0) (data bandpass)))).

(** Writing [np.nan] at the listed positions of the buffer. The array is
    updated in place: every later read and the file written at the end see
    the new contents. *)
Definition blank (positions : list nat) (l : list complex128) : list complex128 :=
  fold_left (fun acc i => <[i := nan_c]> acc) positions l.

(** [bandpass[time, ant, mask, pol] = np.nan] for a boolean [mask] over the
    channels. *)
Definition set_masked_nan (bandpass : ndarray complex128) (time ant : Z)
    (mask : list bool) (pol : Z) : result (ndarray complex128) :=
  let? (d0, d1, d2, d3) := dims4 bandpass in
  let? t := np_index d0 time in
  let? a := np_index d1 ant in
  let? p := np_index d3 pol in
  if negb (Z.of_nat (length mask) =? d2) then Err IndexError
  else
    Ok (NdArray (shape bandpass)
          (blank (map (fun c => offset4 d1 d2 d3 t a c p)
                    (mask_select mask (arange (Z.to_nat d2))))
             (data bandpass))).

(** [bandpass[time, ant, :, pol] = np.nan] *)
Definition set_channels_nan (bandpass : ndarray complex128) (time ant pol : Z)
  : result (ndarray complex128) :=
  let? (d0, d1, d2, d3) := dims4 bandpass in
  set_masked_nan bandpass time ant (replicate (Z.to_nat d2) true) pol.

(** [bandpass[time, ant, :, :] = np.nan] *)
Definition set_antenna_nan (bandpass : ndarray complex128) (time ant : Z)
  : result (ndarray complex128) :=
  let? (d0, d1, d2, d3) := dims4 bandpass in
  let? t := np_index d0 time in
  let? a := np_index d1 ant in
  Ok (NdArray (shape bandpass)
        (blank (map (fun k => (offset4 d1 d2 d3 t a 0 0 + k)%nat)
                  (seq 0 (Z.to_nat (d2 * d3))))
           (data bandpass))).

(** [bandpass[time] = value], for a value of the shape of [bandpass[time]]. *)
Definition set_time (bandpass : ndarray complex128) (time : Z)
    (value : ndarray complex128) : result (ndarray complex128) :=
  let? (d0, d1, d2, d3) := dims4 bandpass in
  let? t := np_index d0 time in
  if negb (bool_decide (shape value = [d1; d2; d3])) then Err ValueError
  else
    let start := offset4 d1 d2 d3 t 0 0 0 in
    let n := Z.to_nat (d1 * d2 * d3) in
    Ok (NdArray (shape bandpass)
          (take start (data bandpass) ++ take n (data value)
             ++ drop (start + n) (data bandpass))).

(** ** aocalibrate.py: reference antenna and orchestration *)

(** Consecutive blocks of [n] items. *)
Fixpoint chunks {A} (n : nat) (count : nat) (l : list A) : list (list A) :=
  match count with
  | O => []
  | S k => take n l :: chunks n k (drop n l)
  end.

(** [np.argmax] of a flattened array: position of the first maximum. *)
Fixpoint argmax_from (best_i : nat) (best_v : Z) (i : nat) (l : list Z) : nat :=
  match l with
  | [] => best_i
  | v :: rest =>
      if best_v <? v then argmax_from i v (S i) rest
      else argmax_from best_i best_v (S i) rest
  end.

Definition np_argmax (l : list Z) : result Z :=
  match l with
  | [] => Err ValueError
  | v :: rest => Ok (Z.of_nat (argmax_from 0 v 1 rest))
  end.

Definition select_refant (bandpass : ndarray complex128) : result Z :=
  let? _ := py_assert (length (shape bandpass) =? 4)%nat in
  match shape bandpass with
  | [d0; d1; d2; d3] =>
      (* the mask of valid solutions *)
      let mask := map isfinite_c (data bandpass) in
      (* one count per (time, antenna) *)
      let sum_mask :=
        map count_true
          (chunks (Z.to_nat (d2 * d3)) (Z.to_nat (d0 * d1)) mask) in
      (* argmax without an axis works on the flattened counts *)
      np_argmax sum_mask
  | _ => Err AssertionError
  end.

Module FlaggedAOSolution.
Record t : Type := Build {
  path : string;
  plots : list string
}.
End FlaggedAOSolution.

(** Routines of this package and of pathlib that the orchestration calls. *)
Class Collaborators : Type := {
  (* flint.bptools.preflagger.flag_mean_xxyy_amplitude_ratio *)
  flag_mean_xxyy_amplitude_ratio :
    list complex128 -> list complex128 -> result bool;
  (* flint.bptools.smoother *)
  divide_bandpass_by_ref_ant :
    ndarray complex128 -> Z -> result (ndarray complex128);
  smooth_bandpass_complex_gains :
    ndarray complex128 -> result (ndarray complex128);
  (* flint.naming.get_aocalibrate_output_path(ms_path, include_preflagger,
     include_smoother) *)
  get_aocalibrate_output_path : string -> bool -> bool -> string;
  (* Path.name and Path.__truediv__ *)
  path_name : string -> string;
  path_join : string -> string -> string
}.

Definition pols (pol : Z) : string :=
  if pol =? 0 then "XX" else if pol =? 1 then "XY"
  else if pol =? 2 then "YX" else "YY".

(** [f"{ant:02d}"] for an integer. *)
Definition ant02 (ant : Z) : string :=
  match format_02d (Some ant) with
  | Ok s => s
  | Err _ => ""
  end.

(** [for x in xs: body], threading the state the body updates. *)
Fixpoint for_each {A S} (xs : list A) (body : A -> S -> M S) (s : S) : M S :=
  match xs with
  | [] => ret s
  | x :: rest => let* s' := body x s in for_each rest body s'
  end.

Section Orchestrator.
Context {stats : Statistics} {num : Numerics} {plt : Plotting}
        {env : Collaborators}.

(** One turn of the innermost loop of the first pass: antenna [ant] at
    [(time, pol)]. *)
Definition flag_cell (title : string) (plot_dir : option string)
    (flag_cut : float) (ref_ant time pol ant : Z)
    (bandpass : ndarray complex128) : M (ndarray complex128) :=
  if ant =? ref_ant then ret bandpass
  else
    let* ref_ant_gains := lift (get_channels bandpass time ref_ant pol) in
    let* gains := lift (get_channels bandpass time ant pol) in
    let ant_gains := zip_with c_div gains ref_ant_gains in
    let plot_title :=
      (title +:+ " - ant" +:+ ant02 ant +:+ " - " +:+ pols pol)%string in
    let ouput_path :=
      (fun dir =>
         path_join dir
           (title +:+ ".ant" +:+ ant02 ant +:+ "." +:+ pols pol +:+ ".png")%string)
        <$> plot_dir in
    if count_true (map isfinite_c ant_gains) =? 0 then ret bandpass
    else
      let* bandpass :=
        try_except
          (let* phase_outlier_result :=
             flag_outlier_phase ant_gains flag_cut false
               (Some plot_title) ouput_path in
           lift (set_masked_nan bandpass time ant
                   (PhaseOutlierResults.outlier_mask phase_outlier_result) pol))
          PhaseOutlierFitError
          (* raised if the fit failed to converge, or some other nasty *)
          (lift (set_channels_nan bandpass time ant pol)) in
      (* Flag all solutions for this (ant, pol) if more than 80% are flagged *)
      let* current := lift (get_channels bandpass time ant pol) in
      let flags := map (fun c => negb (isfinite_c c)) current in
      let* over :=
        lift (flags_over_threshold
                (NdArray [Z.of_nat (length flags)] flags) float_0_8 (Some ant)) in
      let* bandpass :=
        if over then lift (set_channels_nan bandpass time ant pol)
        else ret bandpass in
      let* complex_gains := lift (get_channels bandpass time ant pol) in
      let* bad :=
        if existsb isfinite_c complex_gains
        then lift (flag_mean_residual_amplitude complex_gains true 5)
        else ret false in
      let* bandpass :=
        if bad then lift (set_channels_nan bandpass time ant pol)
        else ret bandpass in
      ret bandpass.

(** The first pass: phase outliers, flagged fraction, residual amplitude. *)
Definition first_pass (solutions : AOSolutions.t) (title : string)
    (plot_dir : option string) (flag_cut : float) (ref_ant : Z)
    (bandpass : ndarray complex128) : M (ndarray complex128) :=
  for_each (arange (Z.to_nat (AOSolutions.nsol solutions)))
    (fun time bandpass =>
       for_each [0; 3]
         (fun pol bandpass =>
            let* ref_ant_gains := lift (get_channels bandpass time ref_ant pol) in
            if count_true (map isfinite_c ref_ant_gains) =? 0
            then raise ValueError
            else
              for_each (arange (Z.to_nat (AOSolutions.nant solutions)))
                (flag_cell title plot_dir flag_cut ref_ant time pol)
                bandpass)
         bandpass)
    bandpass.

(** The second pass: statistics across polarisations. *)
Definition second_pass (solutions : AOSolutions.t) (ref_ant : Z)
    (bandpass : ndarray complex128) : M (ndarray complex128) :=
  for_each (arange (Z.to_nat (AOSolutions.nsol solutions)))
    (fun time bandpass =>
       let* _ := lift (get_antenna bandpass time ref_ant) in
       for_each (arange (Z.to_nat (AOSolutions.nant solutions)))
         (fun ant bandpass =>
            if ref_ant =? ant then ret bandpass
            else
              let* ref_ant_gains := lift (get_antenna bandpass time ref_ant) in
              let* gains := lift (get_antenna bandpass time ant) in
              let ant_gains :=
                NdArray (shape gains)
                  (zip_with c_div (data gains) (data ref_ant_gains)) in
              let* xx := lift (get_column ant_gains 0) in
              let* yy := lift (get_column ant_gains 3) in
              let* bad := lift (flag_mean_xxyy_amplitude_ratio xx yy) in
              if bad then lift (set_antenna_nan bandpass time ant)
              else ret bandpass)
         bandpass)
    bandpass.

(** [solutions.save(output_path=...)]: the tuple still refers to the array
    the passes have been writing to. *)
Definition save_current (solutions : AOSolutions.t)
    (bandpass : ndarray complex128) (output_path : string) : M string :=
  save_aosolutions_file
    (AOSolutions.Build (AOSolutions.path solutions) (AOSolutions.nsol solutions)
       (AOSolutions.nant solutions) (AOSolutions.nchan solutions)
       (AOSolutions.npol solutions) bandpass)
    output_path.

(** Fraction of the array that is not finite. *)
Definition total_flagged (bandpass : ndarray complex128) : float :=
  (Z2float (count_true (map (fun c => negb (isfinite_c c)) (data bandpass)))
   / Z2float (np_prod (shape bandpass)))%float.

(** [flag_aosolutions] up to, and without, the closing sanity check: load,
    choose the reference antenna, run both passes, persist (and smooth and
    persist again when asked to). Returns the array as it stands, the path
    last written and the plots made. *)
Definition flag_and_save (solutions_path : string) (ref_ant : Z)
    (flag_cut : float) (plot_dir : option string)
    (out_solutions_path : option string) (smooth_solutions : bool)
    (plot_solutions_throughout : bool)
  : M (ndarray complex128 * string * list string) :=
  let* solutions := load_aosolutions_file solutions_path in
  let title := path_name solutions_path in
  (* plot_dir is created here when it is missing; directories are not
     part of the file-system state *)
  let bandpass := AOSolutions.bandpass solutions in
  let* ref_ant :=
    if ref_ant <? 0 then lift (select_refant (AOSolutions.bandpass solutions))
    else ret ref_ant in
  let plots : list string := [] in
  let* plots :=
    if plot_solutions_throughout then
      let* output_plots := plot_solutions solutions_path (Some ref_ant) in
      ret (plots ++ output_plots)
    else ret plots in
  let* bandpass := first_pass solutions title plot_dir flag_cut ref_ant bandpass in
  let* bandpass := second_pass solutions ref_ant bandpass in
  (* the argument out_solutions_path is overwritten here *)
  let out_solutions_path := get_aocalibrate_output_path solutions_path true false in
  let* _ := save_current solutions bandpass out_solutions_path in
  let* plots :=
    if plot_solutions_throughout then
      let* output_plots := plot_solutions out_solutions_path (Some ref_ant) in
      ret (plots ++ output_plots)
    else ret plots in
  if smooth_solutions then
    let* bandpass :=
      for_each (arange (Z.to_nat (AOSolutions.nsol solutions)))
        (fun time bandpass =>
           let* plane := lift (get_time bandpass time) in
           let* complex_gains := lift (divide_bandpass_by_ref_ant plane ref_ant) in
           let* smoothed := lift (smooth_bandpass_complex_gains complex_gains) in
           lift (set_time bandpass time smoothed))
        bandpass in
    let out_solutions_path :=
      get_aocalibrate_output_path solutions_path true true in
    let* _ := save_current solutions bandpass out_solutions_path in
    let* plots :=
      if plot_solutions_throughout then
        let* output_plots := plot_solutions out_solutions_path None in
        ret (plots ++ output_plots)
      else ret plots in
    ret (bandpass, out_solutions_path, plots)
  else ret (bandpass, out_solutions_path, plots).

Definition flag_aosolutions (solutions_path : string) (ref_ant : Z)
    (flag_cut : float) (plot_dir : option string)
    (out_solutions_path : option string) (smooth_solutions : bool)
    (plot_solutions_throughout : bool) : M FlaggedAOSolution.t :=
  let* (bandpass, out_solutions_path, plots) :=
    flag_and_save solutions_path ref_ant flag_cut plot_dir out_solutions_path
      smooth_solutions plot_solutions_throughout in
  if (float_0_8 <? total_flagged bandpass)%float then raise ValueError
  else ret (FlaggedAOSolution.Build out_solutions_path plots).

End Orchestrator.

(** ** The reading of [select_refant] in the specification

    The antenna with the most finite entries in the first time solution,
    the first such antenna on ties. *)
Definition select_refant_spec (bandpass : ndarray complex128) : result Z :=
  match shape bandpass with
  | [d0; d1; d2; d3] =>
      let mask := map isfinite_c (data bandpass) in
      np_argmax (map count_true (chunks (Z.to_nat (d2 * d3)) (Z.to_nat d1) mask))
  | _ => Err AssertionError
  end.

(** ** Reference statistics

    Mean, standard deviation and median computed one element after the
    other. numpy sums in the same order on arrays of fewer than eight
    elements; the properties below that quantify over [Statistics] do not
    depend on the order. *)

Definition fsum (l : list float) : float := fold_left add l 0%float.

Definition fmean (l : list float) : float :=
  (fsum l / Z2float (Z.of_nat (length l)))%float.

Definition fstd (l : list float) : float :=
  let mu := fmean l in
  sqrt (fmean (map (fun x => ((x - mu) * (x - mu))%float) l)).

Fixpoint finsert (x : float) (l : list float) : list float :=
  match l with
  | [] => [x]
  | y :: rest => if (x <=? y)%float then x :: l else y :: finsert x rest
  end.

Definition fsort (l : list float) : list float := fold_right finsert [] l.

Definition fmedian (l : list float) : float :=
  if existsb is_nan l then nan
  else
    let sorted := fsort l in
    let n := length sorted in
    if (n =? 0)%nat then nan
    else if Nat.odd n then nth (n / 2) sorted nan
    else ((nth (n / 2 - 1) sorted nan + nth (n / 2) sorted nan) / 2)%float.

Definition drop_nan (l : list float) : list float :=
  List.filter (fun x => negb (is_nan x)) l.

Definition sequential_statistics : Statistics := {|
  np_median := fmedian;
  np_nanmean := fun l => fmean (drop_nan l);
  np_nanstd := fun l => fstd (drop_nan l);
  np_mean := fmean;
  np_std := fstd
|}.

(** ** A concrete environment for worked runs *)

(** The word of the double 1.0, and the gain 1+0j. *)
Definition f64_one : Z := 0x3ff0000000000000.
Definition unit_gain : complex128 := Complex f64_one 0.

(** Numerical routines as they act on unit gains of zero phase: the angle
    is 0, the modulus 1, a quotient of unit gains is a unit gain and the ramp
    model of zero gradient and offset is made of unit gains. The outcome of
    the least-squares fit, seeded at [p0], is left to [fit]. *)
Definition unit_gain_numerics (fit : float * float -> result (float * float))
  : Numerics := {|
  c_of_float := fun _ => Complex 0 0;
  c_of_int := fun _ => Complex 0 0;
  c_1j := Complex 0 f64_one;
  c_add := fun _ _ => Complex 0 0;
  c_mul := fun _ _ => Complex 0 0;
  c_div := fun a _ => a;
  np_exp := fun _ => unit_gain;
  np_angle := fun _ => 0%float;
  np_abs := fun _ => 1%float;
  curve_fit := fun _ _ _ p0 => fit p0;
  np_polyfit := fun _ _ _ => Ok [];
  np_polyval := fun _ xs => map (fun _ => 0%float) xs
|}.

(** The data lie on the seed model: the optimiser returns the seed. *)
Definition exact_fit_numerics : Numerics := unit_gain_numerics Ok.

(** The optimiser gives up: [curve_fit] raises [RuntimeError], as scipy does
    when the least-squares minimisation fails. *)
Definition failing_fit_numerics : Numerics :=
  unit_gain_numerics (fun _ => Err RuntimeError).

(** No figure is drawn. *)
Definition no_plotting : Plotting := {|
  plot_phase_outlier := fun _ p _ => ret p;
  plot_solutions := fun _ _ => ret []
|}.

(** Modelled from the spec: [flint.naming.get_aocalibrate_output_path] is
    not among the sources. The naming convention adds a "preflagged" suffix,
    and a "smoothed" suffix when the smoothed file is asked for. *)
Definition aocalibrate_output_path (ms_path : string)
    (include_preflagger include_smoother : bool) : string :=
  (ms_path +:+ (if include_preflagger then ".preflagged" else "")
     +:+ (if include_smoother then ".smoothed" else ""))%string.

(** The ratio test passes every antenna and the smoother returns its input. *)
Definition plain_collaborators : Collaborators := {|
  flag_mean_xxyy_amplitude_ratio := fun _ _ => Ok false;
  divide_bandpass_by_ref_ant := fun a _ => Ok a;
  smooth_bandpass_complex_gains := fun a => Ok a;
  get_aocalibrate_output_path := aocalibrate_output_path;
  path_name := fun p => p;
  path_join := fun d n => (d +:+ "/" +:+ n)%string
|}.

Definition solutions_of (p : string) (nsol nant nchan npol : Z)
    (elements : list complex128) : AOSolutions.t :=
  AOSolutions.Build p nsol nant nchan npol
    (NdArray [nsol; nant; nchan; npol] elements).

(** One antenna, two channels, four polarisations, every gain 1+0j. *)
Definition single_antenna : AOSolutions.t :=
  solutions_of "cal.bin" 1 1 2 4 (replicate 8 unit_gain).

(** One antenna, five channels: XX and YY of the first channel and XX of the
    second are finite, 17 of the 20 entries (85%) are NaN. *)
Definition mostly_nan : AOSolutions.t :=
  solutions_of "cal.bin" 1 1 5 4
    ([unit_gain; nan_c; nan_c; unit_gain; unit_gain] ++ replicate 15 nan_c).

(** Two antennas, two channels, every gain 1+0j. *)
Definition two_antennas : AOSolutions.t :=
  solutions_of "cal.bin" 1 2 2 4 (replicate 16 unit_gain).

(** Two time solutions of two antennas, two channels and one polarisation.
    First solution: antenna 0 has one finite channel, antenna 1 none.
    Second solution: antenna 0 has none, antenna 1 has both. *)
Definition two_epochs : ndarray complex128 :=
  NdArray [2; 2; 2; 1]
    [unit_gain; nan_c;   nan_c; nan_c;
     nan_c; nan_c;       unit_gain; unit_gain].

Definition disk_with (x : AOSolutions.t) : filesystem :=
  {[ AOSolutions.path x := file_image x ]}.

(** What [flag_outlier_phase] returns on two unit gains at [flag_cut = 3]
    when the fit is exact. *)
Definition unit_gain_result : PhaseOutlierResults.t :=
  PhaseOutlierResults.Build
    [unit_gain; unit_gain] [unit_gain; unit_gain] [unit_gain; unit_gain]
    (0%float, 0%float) (0%float, 0%float)
    [true; true] 0%float 0%float 3%float.

(** A one-element solution file with the magic tag and [file_type = 1]. *)
Definition file_of_type_1 : list byte :=
  header_intro
    ++ le_bytes 4 1 ++ le_bytes 4 0
    ++ le_bytes 4 1 ++ le_bytes 4 1 ++ le_bytes 4 1 ++ le_bytes 4 1
    ++ le_bytes 8 0 ++ le_bytes 8 0
    ++ c16_bytes unit_gain.

(** Five flags, four of them set. *)
Definition four_of_five : ndarray bool :=
  NdArray [5] [true; true; false; true; true].

(** A one-element solution file with [structure_type = 7]. *)
Definition file_of_structure_type_7 : list byte :=
  header_intro
    ++ le_bytes 4 0 ++ le_bytes 4 7
    ++ le_bytes 4 1 ++ le_bytes 4 1 ++ le_bytes 4 1 ++ le_bytes 4 1
    ++ le_bytes 8 0 ++ le_bytes 8 0
    ++ c16_bytes unit_gain.

(** A file of two time solutions, two antennas, one channel and four
    polarisations. First solution: antenna 0 has XX finite, antenna 1
    nothing. Second solution: antenna 0 nothing, antenna 1 everything. *)
Definition two_epochs_on_disk : AOSolutions.t :=
  solutions_of "cal.bin" 2 2 1 4
    ([unit_gain; nan_c; nan_c; unit_gain] ++ replicate 4 nan_c
       ++ replicate 4 nan_c ++ replicate 4 unit_gain).

(** Residual phases left by a ramp fitted to the phases 0, 0, 0, 1.25, 0:
    the least-squares line is [0.125 * x]. *)
Definition skewed_residuals : list float :=
  [0%float; (-0.125)%float; (-0.25)%float; 0.875%float; (-0.5)%float].



(** [file_without_magic] with the magic tag in place. *)
Definition file_with_magic : list byte :=
  header_intro ++ drop 8 file_without_magic.

(** ** Further definitions used by the properties of the codec *)

(** The 48 header bytes [save_aosolutions_file] writes before the array. *)
Definition header_image (x : AOSolutions.t) : list byte :=
  header_intro
    ++ le_bytes 4 0 ++ le_bytes 4 0
    ++ le_bytes 4 (AOSolutions.nsol x) ++ le_bytes 4 (AOSolutions.nant x)
    ++ le_bytes 4 (AOSolutions.nchan x) ++ le_bytes 4 (AOSolutions.npol x)
    ++ le_bytes 8 0 ++ le_bytes 8 0.

(** The four extents of the header fit [struct.pack]'s unsigned [I]. *)
Definition packable (x : AOSolutions.t) : bool :=
  forallb (fun n => (0 <=? n) && (n <? 2 ^ 32))
    [AOSolutions.nsol x; AOSolutions.nant x; AOSolutions.nchan x; AOSolutions.npol x].

(** A solution set whose [nsol] does not fit 32 bits. *)
Definition oversized : AOSolutions.t :=
  solutions_of "cal.bin" (2 ^ 32) 1 1 1 [].

(** The number of finite entries of [bandpass[0, ant]], over channels and
    polarisations. *)
Definition finite_in_antenna (bandpass : ndarray complex128) (ant : Z) : Z :=
  match get_antenna bandpass 0 ant with
  | Ok plane => count_true (map isfinite_c (data plane))
  | Err _ => 0
  end.

(** One time solution, three antennas, one channel, two polarisations:
    antenna 0 has one finite entry, antennas 1 and 2 have two. *)
Definition three_antennas : ndarray complex128 :=
  NdArray [1; 3; 1; 2]
    [unit_gain; nan_c;  unit_gain; unit_gain;  unit_gain; unit_gain].

(** ** Relations between the array before and after a flagging stage *)

(** [after] is [before] with some entries overwritten by NaN: same shape,
    same number of elements, and every element is the old one or NaN. *)
Definition blanked_from (before after : ndarray complex128) : Prop :=
  shape after = shape before /\
  Forall2 (fun old new => new = old \/ new = nan_c) (data before) (data after).

(** The gains of antenna [ref_ant] read the same from [after] as from
    [before], at every time solution and polarisation. *)
Definition reference_kept (ref_ant : Z) (before after : ndarray complex128) : Prop :=
  forall time pol,
    get_channels after time ref_ant pol = get_channels before time ref_ant pol.

(** A computation that leaves the files alone, whatever it returns. *)
Definition reads_only {A} (m : M A) : Prop :=
  forall fs, fst (m fs) = fs.

(** A computation that changes no file except those at the listed paths. *)
Definition writes_only {A} (paths : list string) (m : M A) : Prop :=
  forall fs q, ~ In q paths -> fst (m fs) !! q = fs !! q.

(** ** Worked inputs for the properties of the orchestration *)

(** [two_antennas] after the cell (time 0, XX, antenna 1) has been through
    the first pass with antenna 0 as reference: the fit is exact, the
    residuals have no spread, so the strict cut flags every channel. *)
Definition two_antennas_xx_flagged : ndarray complex128 :=
  NdArray [1; 2; 2; 4]
    (replicate 8 unit_gain
       ++ [nan_c; unit_gain; unit_gain; unit_gain;
           nan_c; unit_gain; unit_gain; unit_gain]).

(** [two_antennas] after the whole first pass: XX and YY of antenna 1 are
    blanked. *)
Definition two_antennas_flagged : ndarray complex128 :=
  NdArray [1; 2; 2; 4]
    (replicate 8 unit_gain
       ++ [nan_c; unit_gain; unit_gain; nan_c;
           nan_c; unit_gain; unit_gain; nan_c]).

(** A file that stops after the first of the eight elements its header
    announces. *)
Definition truncated_disk : filesystem :=
  {[ "cal.bin"%string := header_image single_antenna ++ c16_bytes unit_gain ]}.

(** A valid file followed by one more byte. *)
Definition padded_disk : filesystem :=
  {[ "cal.bin"%string := file_image single_antenna ++ [x00] ]}.

(** ** bandpass_pipeline.py: the task that flags a solution file *)

(** [CalibrateCommand], over the type of measurement-set descriptions
    ([flint.ms.MS]). *)
Module CalibrateCommand.
Record t (MS : Type) : Type := Build {
  cmd : string;
  solution_path : string;
  ms : MS;
  model : string;
  preflagged : bool
}.
Arguments Build {MS}.
Arguments cmd {MS}.
Arguments solution_path {MS}.
Arguments ms {MS}.
Arguments model {MS}.
Arguments preflagged {MS}.

(** [with_options]: a field given as a keyword replaces the one of [self]. *)
Definition with_options {MS : Type} (self : t MS)
    (new_cmd new_solution_path : option string) (new_ms : option MS)
    (new_model : option string) (new_preflagged : option bool) : t MS :=
  Build (default (cmd self) new_cmd)
        (default (solution_path self) new_solution_path)
        (default (ms self) new_ms)
        (default (model self) new_model)
        (default (preflagged self) new_preflagged).
End CalibrateCommand.

Section Pipeline.
Context {stats : Statistics} {num : Numerics} {plt : Plotting}
        {env : Collaborators}.

(* flint.ms.MS and its path attribute *)
Variable MS : Type.
Variable ms_path_of : MS -> string.
(* Path.parent *)
Variable path_parent : string -> string.
(* flint.prefect.common.utils.upload_image_as_artifact(image_path, description) *)
Variable upload_image_as_artifact : string -> string -> M unit.

Definition task_flag_solutions (calibrate_cmd : CalibrateCommand.t MS)
  : M (CalibrateCommand.t MS) :=
  let solution_path := CalibrateCommand.solution_path calibrate_cmd in
  let ms_path := ms_path_of (CalibrateCommand.ms calibrate_cmd) in
  let plot_dir := path_join (path_parent ms_path) "preflagger" in
  (* plot_dir is created here when it is missing; directories are not part
     of the file-system state *)
  let* flagged_solutions :=
    flag_aosolutions solution_path (-1) 3%float (Some plot_dir) None true true in
  let* _ :=
    for_each (FlaggedAOSolution.plots flagged_solutions)
      (fun image_path _ =>
         upload_image_as_artifact image_path (path_name image_path))
      tt in
  ret (CalibrateCommand.with_options calibrate_cmd None
         (Some (FlaggedAOSolution.path flagged_solutions)) None None (Some true)).

End Pipeline.

(** A command for the measurement set next to [two_antennas]. *)
Definition two_antennas_command : CalibrateCommand.t string :=
  CalibrateCommand.Build "calibrate" "cal.bin" "data/beam0.ms" "model.txt" false.
(** ** Codec: encoding lemmas *)

Lemma Z_of_byte_range (b : byte) : 0 <= Z_of_byte b < 256.
Proof.
  unfold Z_of_byte. pose proof (Byte.to_N_bounded b). lia.
Qed.

Lemma Z_of_byte_of_Z (z : Z) : Z_of_byte (byte_of_Z z) = z mod 256.
Proof.
  unfold Z_of_byte, byte_of_Z.
  assert (Hr : 0 <= z mod 256 < 256) by (apply Z.mod_pos_bound; lia).
  destruct (Byte.of_N (Z.to_N (z mod 256))) as [b|] eqn:E.
  - apply Byte.to_of_N in E. rewrite E. lia.
  - apply Byte.of_N_None_iff in E. lia.
Qed.

Lemma le_value_le_bytes (n : nat) (z : Z) :
  le_value (le_bytes n z) = z mod 256 ^ Z.of_nat n.
Proof.
  revert z. induction n as [|n IH]; intros z.
  - simpl. now rewrite Z.mod_1_r.
  - cbn [le_bytes le_value]. rewrite Z_of_byte_of_Z, IH.
    rewrite Nat2Z.inj_succ, Z.pow_succ_r by lia.
    rewrite Z.rem_mul_r by lia. lia.
Qed.

Lemma le_value_le_bytes_small (n : nat) (z : Z) :
  0 <= z < 256 ^ Z.of_nat n -> le_value (le_bytes n z) = z.
Proof.
  intros H. rewrite le_value_le_bytes. now apply Z.mod_small.
Qed.

Lemma length_le_bytes (n : nat) (z : Z) : length (le_bytes n z) = n.
Proof.
  revert z. induction n as [|n IH]; intros z; simpl; [reflexivity|].
  now rewrite IH.
Qed.

Lemma to_signed_small (w u : Z) : 0 <= u < 2 ^ (w - 1) -> to_signed w u = u.
Proof.
  intros H. unfold to_signed.
  destruct (Z.ltb_spec u (2 ^ (w - 1))); lia.
Qed.

Lemma fromfile_c16_nat_tofile (l : list complex128) (rest : list byte) :
  Forall valid_element l ->
  fromfile_c16_nat (length l) (concat (map c16_bytes l) ++ rest) = l.
Proof.
  induction 1 as [|c l [Hre Him] _ IH]; [reflexivity|].
  destruct c as [r i]. simpl in Hre, Him.
  pose proof (le_value_le_bytes_small 8 r Hre) as Er.
  pose proof (le_value_le_bytes_small 8 i Him) as Ei.
  cbn [le_bytes] in Er, Ei.
  cbn [length map concat]. unfold c16_bytes at 1.
  cbn [re im le_bytes app fromfile_c16_nat].
  rewrite IH, Er, Ei. reflexivity.
Qed.

Lemma fromfile_i4_word (z : Z) (n : nat) (rest : list byte) :
  0 <= z < 2 ^ 32 ->
  fromfile_i4 (S n) (le_bytes 4 z ++ rest) =
  (to_signed 32 z :: fst (fromfile_i4 n rest), snd (fromfile_i4 n rest)).
Proof.
  intros Hz.
  pose proof (le_value_le_bytes_small 4 z Hz) as Ez. cbn [le_bytes] in Ez.
  cbn [le_bytes app fromfile_i4].
  destruct (fromfile_i4 n rest) as [xs r]. cbn [fst snd].
  rewrite Ez. reflexivity.
Qed.

Lemma pack_I_extent (n : Z) : 0 <= n < 2 ^ 31 -> pack_I n = Ok (le_bytes 4 n).
Proof.
  intros H. unfold pack_I.
  destruct (Z.leb_spec 0 n); [|lia].
  destruct (Z.ltb_spec n (2 ^ 32)); [reflexivity|lia].
Qed.

Lemma save_aosolutions_file_ok (x : AOSolutions.t) (p : string) (fs : filesystem) :
  0 <= AOSolutions.nsol x < 2 ^ 31 -> 0 <= AOSolutions.nant x < 2 ^ 31 ->
  0 <= AOSolutions.nchan x < 2 ^ 31 -> 0 <= AOSolutions.npol x < 2 ^ 31 ->
  save_aosolutions_file x p fs = (<[p := file_image x]> fs, Ok p).
Proof.
  intros H1 H2 H3 H4.
  unfold save_aosolutions_file, bind, open_wb, lift, file_write, ret.
  unfold struct_pack_8s6I2d.
  rewrite (pack_I_extent 0) by lia.
  rewrite !pack_I_extent by assumption.
  cbn [rbind]. rewrite lookup_insert_eq. cbn [default].
  rewrite insert_insert_eq, lookup_insert_eq. cbn [default].
  rewrite insert_insert_eq. reflexivity.
Qed.

Lemma fromfile_i4_header (n1 n2 n3 n4 : Z) (rest : list byte) :
  0 <= n1 < 2 ^ 31 -> 0 <= n2 < 2 ^ 31 -> 0 <= n3 < 2 ^ 31 -> 0 <= n4 < 2 ^ 31 ->
  fromfile_i4 10
    (le_bytes 4 0 ++ le_bytes 4 0 ++ le_bytes 4 n1 ++ le_bytes 4 n2
       ++ le_bytes 4 n3 ++ le_bytes 4 n4 ++ le_bytes 8 0 ++ le_bytes 8 0 ++ rest) =
  ([0; 0; n1; n2; n3; n4; 0; 0; 0; 0], rest).
Proof.
  intros H1 H2 H3 H4.
  change (le_bytes 8 0) with (le_bytes 4 0 ++ le_bytes 4 0).
  rewrite <- !app_assoc.
  rewrite !fromfile_i4_word by lia.
  cbn [fromfile_i4 fst snd].
  rewrite !to_signed_small by lia. reflexivity.
Qed.

Lemma np_reshape_exact (size : Z) (dims : list Z) :
  Forall (fun d => 0 <= d) dims -> np_prod dims = size ->
  np_reshape size dims = Ok dims.
Proof.
  intros Hpos Hsize. unfold np_reshape.
  assert (E : List.filter (fun d => d <? 0) dims = []).
  { clear Hsize. induction Hpos as [|d l Hd _ IH]; [reflexivity|].
    cbn [List.filter]. destruct (Z.ltb_spec d 0); [lia|exact IH]. }
  rewrite E. rewrite (proj2 (Z.eqb_eq _ _) Hsize). reflexivity.
Qed.

Lemma load_file_image (x : AOSolutions.t) (p : string) (fs : filesystem) :
  valid_solutions x ->
  fs !! p = Some (file_image x) ->
  load_aosolutions_file p fs =
  (fs, Ok (AOSolutions.Build p (AOSolutions.nsol x) (AOSolutions.nant x)
             (AOSolutions.nchan x) (AOSolutions.npol x) (AOSolutions.bandpass x))).
Proof.
  intros [H1 H2 H3 H4 Hshape Hsize Haddr Hwords] Hfile.
  unfold extent in *.
  unfold load_aosolutions_file. rewrite Hfile.
  unfold file_image.
  change (fromfile_i4 2 (header_intro ++ ?l))
    with (fst (fromfile_i4 2 header_intro), l).
  cbv iota beta.
  rewrite fromfile_i4_header by lia.
  cbn [lookup list_lookup take drop py_assert rbind Z.eqb].
  rewrite <- Hshape.
  assert (Hcount : wrap_int64 (np_prod (shape (AOSolutions.bandpass x))) =
                   Z.of_nat (length (data (AOSolutions.bandpass x)))).
  { rewrite Hsize. unfold wrap_int64.
    assert (0 <= np_prod (shape (AOSolutions.bandpass x))) by lia.
    rewrite Z.mod_small by lia. apply to_signed_small. lia. }
  rewrite Hcount. unfold fromfile_c16.
  destruct (Z.ltb_spec (Z.of_nat (length (data (AOSolutions.bandpass x)))) 0); [lia|].
  rewrite Nat2Z.id. unfold tofile.
  rewrite <- (app_nil_r (concat _)).
  rewrite fromfile_c16_nat_tofile by exact Hwords.
  rewrite np_reshape_exact.
  - cbn [rbind]. destruct x as [xp n1 n2 n3 n4 [shp dat]]. cbn in *.
    subst shp. reflexivity.
  - rewrite Hshape. repeat constructor; lia.
  - now rewrite Hsize.
Qed.

(** C5 (round trip): saving a well-formed solution set and loading the file
    back succeeds and returns the same [nsol], [nant], [nchan], [npol] and
    the same bandpass array, word for word; the sixteen bytes at offset 32,
    the two reserved time doubles, are written as zero. *)
Theorem load_save_round_trip (x : AOSolutions.t) (p : string) (fs : filesystem) :
  valid_solutions x ->
  exists fs' image,
    save_aosolutions_file x p fs = (fs', Ok p) /\
    fs' !! p = Some image /\
    take 16 (drop 32 image) = replicate 16 x00 /\
    load_aosolutions_file p fs' =
    (fs', Ok (AOSolutions.Build p (AOSolutions.nsol x) (AOSolutions.nant x)
                (AOSolutions.nchan x) (AOSolutions.npol x)
                (AOSolutions.bandpass x))).
Proof.
  intros Hx. pose proof Hx as [H1 H2 H3 H4 _ _ _ _]. unfold extent in *.
  exists (<[p := file_image x]> fs), (file_image x).
  split; [apply save_aosolutions_file_ok; lia|].
  split; [apply lookup_insert_eq|].
  split.
  - unfold file_image, header_intro. reflexivity.
  - apply load_file_image; [exact Hx|apply lookup_insert_eq].
Qed.

(** ** Codec: what [load_aosolutions_file] checks *)

Lemma fromfile_i4_cons (n : nat) (b0 b1 b2 b3 : byte) (rest : list byte) :
  fromfile_i4 (S n) (b0 :: b1 :: b2 :: b3 :: rest) =
  (to_signed 32 (le_value [b0; b1; b2; b3]) :: fst (fromfile_i4 n rest),
   snd (fromfile_i4 n rest)).
Proof.
  cbn [fromfile_i4]. now destruct (fromfile_i4 n rest).
Qed.

Lemma fromfile_i4_skip_magic (m rest : list byte) :
  length m = 8%nat -> snd (fromfile_i4 2 (m ++ rest)) = rest.
Proof.
  intros Hm.
  do 8 (destruct m as [|? m]; [discriminate Hm|]).
  destruct m; [reflexivity|discriminate Hm].
Qed.

Lemma load_magic_irrelevant (p : string) (fs fs' : filesystem) (m m' rest : list byte) :
  length m = 8%nat -> length m' = 8%nat ->
  fs !! p = Some (m ++ rest) -> fs' !! p = Some (m' ++ rest) ->
  snd (load_aosolutions_file p fs) = snd (load_aosolutions_file p fs').
Proof.
  intros Hm Hm' Hfile Hfile'. unfold load_aosolutions_file.
  rewrite Hfile, Hfile'.
  pose proof (fromfile_i4_skip_magic m rest Hm) as E1.
  pose proof (fromfile_i4_skip_magic m' rest Hm') as E2.
  destruct (fromfile_i4 2 (m ++ rest)) as [j1 r1].
  destruct (fromfile_i4 2 (m' ++ rest)) as [j2 r2].
  cbn [snd] in E1, E2. subst r1 r2.
  destruct (fromfile_i4 10 rest) as [header r]. reflexivity.
Qed.

(** C4, as stated, fails: a file whose magic tag is wrong is loaded. *)
Lemma load_accepts_wrong_magic :
  take 8 file_without_magic <> header_intro /\
  exists sols,
    load_aosolutions_file "sol.bin" {["sol.bin" := file_without_magic]} =
    ({["sol.bin" := file_without_magic]}, Ok sols).
Proof.
  split; [discriminate|].
  eexists. unfold load_aosolutions_file.
  rewrite lookup_singleton_eq. vm_compute. reflexivity.
Qed.

(** The [structure_type] field is read but the assertion that follows it
    tests [file_type] again: a file of structure type 7 is loaded. *)
Remark load_accepts_structure_type :
  field_i4 12 file_of_structure_type_7 = Some 7 /\
  exists sols,
    load_aosolutions_file "sol.bin" {["sol.bin" := file_of_structure_type_7]} =
    ({["sol.bin" := file_of_structure_type_7]}, Ok sols).
Proof.
  split; [reflexivity|].
  eexists. unfold load_aosolutions_file.
  rewrite lookup_singleton_eq. vm_compute. reflexivity.
Qed.

(** C4 (amended): a file whose [file_type] field, the [int32] at offset 8,
    is not 0 is rejected with an assertion failure. The first eight bytes
    are skipped unread: whatever the rest of the file, two files that differ
    only there have the same outcome, be it a solution set or an error. *)
Theorem load_checks_file_type :
  (forall (p : string) (fs : filesystem) (bs : list byte) (ft : Z),
      fs !! p = Some bs ->
      field_i4 8 bs = Some ft ->
      ft <> 0 ->
      load_aosolutions_file p fs = (fs, Err AssertionError)) /\
  (forall (p : string) (fs fs' : filesystem) (m m' rest : list byte),
      length m = 8%nat -> length m' = 8%nat ->
      fs !! p = Some (m ++ rest) -> fs' !! p = Some (m' ++ rest) ->
      snd (load_aosolutions_file p fs') = snd (load_aosolutions_file p fs)).
Proof.
  split.
  - intros p fs bs ft Hfile Hft Hne.
    revert Hft. unfold load_aosolutions_file. rewrite Hfile. unfold field_i4.
    do 8 (destruct bs as [|? bs]; [discriminate|]).
    cbn [drop take].
    do 4 (destruct bs as [|? bs]; [discriminate|]).
    cbn [take]. intros [= Hft].
    rewrite (fromfile_i4_cons 1), (fromfile_i4_cons 0).
    change (fromfile_i4 0 ?l) with (@nil Z, l). cbn [fst snd].
    rewrite (fromfile_i4_cons 9).
    cbn [lookup list_lookup le_value]. rewrite Hft.
    destruct (Z.eqb_spec ft 0); [contradiction|reflexivity].
  - intros p fs fs' m m' rest Hm Hm' Hfile Hfile'.
    now apply (load_magic_irrelevant p fs' fs m' m rest).
Qed.

(** ** The phase outlier cut *)

Section PhaseOutlierCut.
Context {stats : Statistics}.

Lemma phase_outlier_cut_eq (residuals : list float) (flag_cut : float) (use_mad : bool) :
  phase_outlier_cut residuals flag_cut use_mad =
  (map (fun r => negb (is_finite r &&
                       (abs r <? cut_centre residuals use_mad
                                 + flag_cut * cut_spread residuals use_mad)%float))
       residuals,
   cut_centre residuals use_mad, cut_spread residuals use_mad).
Proof.
  unfold phase_outlier_cut, cut_centre, cut_spread.
  destruct use_mad; cbv zeta; rewrite map_map; reflexivity.
Qed.

End PhaseOutlierCut.

(** ** [flag_outlier_phase] *)

Lemma bind_ok {A B} (m : M A) (k : A -> M B) (fs fs' : filesystem) (b : B) :
  bind m k fs = (fs', Ok b) ->
  exists a fs1, m fs = (fs1, Ok a) /\ k a fs1 = (fs', Ok b).
Proof.
  unfold bind. destruct (m fs) as [fs1 [a|e]]; [eauto|discriminate].
Qed.

Lemma lift_ok {A} (r : result A) (fs fs' : filesystem) (a : A) :
  lift r fs = (fs', Ok a) -> r = Ok a /\ fs' = fs.
Proof.
  unfold lift. now intros [= -> ->].
Qed.

Section FlagOutlierPhase.
Context {stats : Statistics} {num : Numerics} {plt : Plotting}.

(** A returned result carries the final cut of its own residual phases. *)
Lemma flag_outlier_phase_cut (complex_gains : list complex128) (flag_cut : float)
    (use_mad : bool) (plot_title plot_path : option string)
    (fs fs' : filesystem) (res : PhaseOutlierResults.t) :
  flag_outlier_phase complex_gains flag_cut use_mad plot_title plot_path fs
  = (fs', Ok res) ->
  PhaseOutlierResults.complex_gains res = complex_gains /\
  PhaseOutlierResults.flag_cut res = flag_cut /\
  (PhaseOutlierResults.outlier_mask res,
   PhaseOutlierResults.unwrapped_residual_mean res,
   PhaseOutlierResults.unwrapped_residual_std res)
  = phase_outlier_cut (residual_phases res) flag_cut use_mad.
Proof.
  unfold flag_outlier_phase. intros H.
  apply bind_ok in H as ([[init_p0 init_model] unwrapped] & fs1 & Hinit & H).
  apply lift_ok in Hinit as [Hinit ->].
  apply bind_ok in H as (results & fs2 & Hfit & H).
  apply lift_ok in Hfit as [_ ->].
  assert (Hun : unwrapped = zip_with c_div complex_gains init_model).
  { revert Hinit. unfold initial_unwrap.
    destruct (mask_select _ _); [discriminate|]. cbn [rbind].
    now intros [= _ <- <-]. }
  match type of H with
  | context [phase_outlier_cut ?r flag_cut use_mad] =>
      remember (phase_outlier_cut r flag_cut use_mad) as cut eqn:Ecut
  end.
  destruct cut as [[mask m] s].
  apply bind_ok in H as (p & fs3 & _ & H).
  unfold ret in H. injection H as _ <-.
  unfold residual_phases. cbn. rewrite <- Hun, Ecut. auto.
Qed.

End FlagOutlierPhase.

(** C1: the mask of a result of [flag_outlier_phase], channel by channel.
    With [m] and [s] the centre and spread the result carries (the median
    and MAD of the finite residual phases when [use_mad] is set, their
    NaN-ignoring mean and standard deviation otherwise), a channel is marked
    as an outlier exactly when its residual phase [r] is not finite or
    [|r| < m + flag_cut * s] does not hold. The modulus of the residual is
    compared, not its distance [|r - m|] to the centre. So on the residual
    phases 0, -1/8, -1/4, 7/8, -1/2, with [use_mad] and [flag_cut = 4], the
    centre is -1/8, the spread 1/8 and the bound 3/8: the last channel is
    flagged although its residual lies 3/8 from the centre, within
    [flag_cut * s = 1/2] of it. *)
Theorem flag_outlier_phase_cuts_on_modulus :
  (forall (stats : Statistics) (num : Numerics) (plt : Plotting)
          (complex_gains : list complex128) (flag_cut : float) (use_mad : bool)
          (plot_title plot_path : option string) (fs fs' : filesystem)
          (res : PhaseOutlierResults.t),
      flag_outlier_phase complex_gains flag_cut use_mad plot_title plot_path fs
      = (fs', Ok res) ->
      let rs := residual_phases res in
      let m := PhaseOutlierResults.unwrapped_residual_mean res in
      let s := PhaseOutlierResults.unwrapped_residual_std res in
      m = cut_centre rs use_mad /\
      s = cut_spread rs use_mad /\
      PhaseOutlierResults.outlier_mask res
      = map (fun r => negb (is_finite r && (abs r <? m + flag_cut * s)%float)) rs) /\
  @phase_outlier_cut sequential_statistics skewed_residuals 4%float true
  = ([false; false; false; true; true], (-0.125)%float, 0.125%float) /\
  skewed_residuals !! 4%nat = Some (-0.5)%float /\
  (abs (-0.5 - -0.125) <? 4 * 0.125)%float = true.
Proof.
  split.
  - intros stats num plt complex_gains flag_cut use_mad plot_title plot_path
      fs fs' res Hrun.
    apply flag_outlier_phase_cut in Hrun as (_ & _ & Hcut).
    rewrite phase_outlier_cut_eq in Hcut. injection Hcut as Hmask Hm Hs.
    cbv zeta. rewrite Hm, Hs. auto.
  - repeat split; vm_compute; reflexivity.
Qed.

(** On the boundary: two unit gains are fitted exactly, both residual
    phases are 0 with centre 0 and spread 0, so each residual lies exactly on
    [|r - centre| = flag_cut * spread]; both channels are flagged, none is
    kept. *)
Example flag_outlier_phase_flags_boundary :
  exists res,
    @flag_outlier_phase sequential_statistics exact_fit_numerics no_plotting
      [unit_gain; unit_gain] 3%float false None None ∅ = (∅, Ok res) /\
    @residual_phases exact_fit_numerics res = [0%float; 0%float] /\
    PhaseOutlierResults.unwrapped_residual_mean res = 0%float /\
    PhaseOutlierResults.unwrapped_residual_std res = 0%float /\
    (abs (0 - PhaseOutlierResults.unwrapped_residual_mean res)
       =? 3 * PhaseOutlierResults.unwrapped_residual_std res)%float = true /\
    PhaseOutlierResults.outlier_mask res = [true; true].
Proof.
  eexists. split; [vm_compute; reflexivity|].
  repeat split; vm_compute; reflexivity.
Qed.

(** The other side of the same comparison, with the mean and the standard
    deviation: residuals 1 and 3 (centre 2, spread 1) and [flag_cut = 1];
    the residual 1 is kept although it lies one spread away from the
    centre. *)
Remark phase_outlier_cut_below_centre :
  @phase_outlier_cut sequential_statistics [1%float; 3%float] 1%float false
  = ([false; true], 2%float, 1%float) /\
  (1 * 1 <=? abs (1 - 2))%float = true.
Proof.
  split; vm_compute; reflexivity.
Qed.

(** ** [flag_mean_residual_amplitude] *)

(** C3: whatever the gains, the statistics and the order, the call
    [np.polyfit(x, y, order=...)] names a parameter [numpy.polyfit] does not
    have, and [flag_mean_residual_amplitude] ends in a [TypeError] instead of
    returning a boolean. *)
Theorem flag_mean_residual_amplitude_raises
    (stats : Statistics) (num : Numerics)
    (complex_gains : list complex128) (use_robust : bool) (polynomial_order : Z) :
  flag_mean_residual_amplitude complex_gains use_robust polynomial_order
  = Err TypeError.
Proof.
  unfold flag_mean_residual_amplitude, call_np_polyfit. reflexivity.
Qed.

(** With the parameter named as numpy names it, the call goes through. *)
Remark np_polyfit_by_deg (num : Numerics) (x : list Z) (y : list float) (deg : Z) :
  call_np_polyfit x y [("deg"%string, deg)] = np_polyfit x y deg.
Proof.
  reflexivity.
Qed.

(** ** A fit that does not converge *)

Lemma count_true_existsb {A} (p : A -> bool) (l : list A) :
  existsb p l = true -> (count_true (map p l) =? 0) = false.
Proof.
  intros H. apply Z.eqb_neq. unfold count_true.
  induction l as [|x l IH]; [discriminate|].
  cbn [existsb map List.filter] in *.
  destruct (p x); cbn [length]; [lia|]. now apply IH.
Qed.

Section FitFailure.
Context {stats : Statistics} {num : Numerics} {plt : Plotting}
        {env : Collaborators}.

Lemma initial_unwrap_finite (complex_gains : list complex128)
    (r : (float * float) * list complex128 * list complex128) :
  initial_unwrap complex_gains = Ok r ->
  existsb isfinite_c complex_gains = true.
Proof.
  unfold initial_unwrap. intros H.
  destruct (existsb isfinite_c complex_gains) eqn:E; [reflexivity|].
  exfalso. revert H.
  assert (Hnil : mask_select (map isfinite_c complex_gains)
                   (map np_angle complex_gains) = []).
  { clear -E. induction complex_gains as [|c l IH]; [reflexivity|].
    cbn [existsb] in E. apply orb_false_iff in E as [Hc Hl].
    cbn [map mask_select]. rewrite Hc. now apply IH. }
  rewrite Hnil. discriminate.
Qed.

(** An exception of the fit leaves [flag_outlier_phase] as it is. *)
Lemma flag_outlier_phase_fit_error (e : exn) (complex_gains : list complex128)
    (init_p0 : float * float) (init_model_gains unwrapped : list complex128)
    (flag_cut : float) (use_mad : bool) (plot_title plot_path : option string)
    (fs : filesystem) :
  initial_unwrap complex_gains = Ok (init_p0, init_model_gains, unwrapped) ->
  fit_phase_ramp complex_gains unwrapped = Err e ->
  flag_outlier_phase complex_gains flag_cut use_mad plot_title plot_path fs
  = (fs, Err e).
Proof.
  intros Hinit Hfit. unfold flag_outlier_phase.
  unfold bind at 1. unfold lift at 1. rewrite Hinit.
  unfold bind at 1. unfold lift at 1. rewrite Hfit. reflexivity.
Qed.

(** An exception of [flag_outlier_phase] that is not a
    [PhaseOutlierFitError] passes through the handler of [flag_cell]. *)
Lemma flag_cell_passes_on (e : exn) (title : string) (plot_dir : option string)
    (flag_cut : float) (ref_ant time pol ant : Z) (bandpass : ndarray complex128)
    (ref_ant_gains gains : list complex128) (fs fs' : filesystem) :
  (ant =? ref_ant) = false ->
  get_channels bandpass time ref_ant pol = Ok ref_ant_gains ->
  get_channels bandpass time ant pol = Ok gains ->
  existsb isfinite_c (zip_with c_div gains ref_ant_gains) = true ->
  (forall plot_title plot_path,
      flag_outlier_phase (zip_with c_div gains ref_ant_gains) flag_cut false
        plot_title plot_path fs = (fs', Err e)) ->
  e <> PhaseOutlierFitError ->
  flag_cell title plot_dir flag_cut ref_ant time pol ant bandpass fs = (fs', Err e).
Proof.
  intros Hant Href Hgains Hfinite Hphase Hne.
  unfold flag_cell. rewrite Hant.
  unfold bind at 1. unfold lift at 1. rewrite Href.
  unfold bind at 1. unfold lift at 1. rewrite Hgains.
  rewrite (count_true_existsb _ _ Hfinite).
  unfold bind at 1. unfold try_except. unfold bind at 1.
  rewrite Hphase.
  destruct e; try reflexivity. contradiction.
Qed.

(** C2: take a cell of a non-reference antenna whose gains, normalised by
    the reference antenna, can be unwrapped, and whose fit does not
    converge: [curve_fit] raises [RuntimeError]. Then [flag_outlier_phase]
    raises that [RuntimeError], not a [PhaseOutlierFitError]; the handler in
    the loop of [flag_aosolutions] does not apply, the cell is not blanked
    and the [RuntimeError] leaves the loop body. *)
Theorem fit_failure_surfaces (title : string) (plot_dir : option string)
    (flag_cut : float) (ref_ant time pol ant : Z) (bandpass : ndarray complex128)
    (ref_ant_gains gains : list complex128)
    (init_p0 : float * float) (init_model_gains unwrapped : list complex128)
    (fs : filesystem) :
  (ant =? ref_ant) = false ->
  get_channels bandpass time ref_ant pol = Ok ref_ant_gains ->
  get_channels bandpass time ant pol = Ok gains ->
  initial_unwrap (zip_with c_div gains ref_ant_gains)
  = Ok (init_p0, init_model_gains, unwrapped) ->
  fit_phase_ramp (zip_with c_div gains ref_ant_gains) unwrapped = Err RuntimeError ->
  (forall use_mad plot_title plot_path,
      flag_outlier_phase (zip_with c_div gains ref_ant_gains) flag_cut use_mad
        plot_title plot_path fs = (fs, Err RuntimeError)) /\
  flag_cell title plot_dir flag_cut ref_ant time pol ant bandpass fs
  = (fs, Err RuntimeError).
Proof.
  intros Hant Href Hgains Hinit Hfit.
  assert (Hphase : forall use_mad plot_title plot_path,
             flag_outlier_phase (zip_with c_div gains ref_ant_gains) flag_cut
               use_mad plot_title plot_path fs = (fs, Err RuntimeError)).
  { intros. now apply (flag_outlier_phase_fit_error RuntimeError _ init_p0
                         init_model_gains unwrapped). }
  split; [exact Hphase|].
  apply (flag_cell_passes_on RuntimeError title plot_dir flag_cut ref_ant time pol
           ant bandpass ref_ant_gains gains fs fs); auto.
  now apply initial_unwrap_finite in Hinit.
Qed.

End FitFailure.

(** The whole of [flag_aosolutions] on a file of two antennas with finite
    gains, when the optimiser does not converge: the [RuntimeError] reaches
    the caller, and nothing is written. *)
Example flag_aosolutions_fit_failure :
  @flag_aosolutions sequential_statistics failing_fit_numerics no_plotting
    plain_collaborators "cal.bin" (-1) 3%float None None false false
    (disk_with two_antennas)
  = (disk_with two_antennas, Err RuntimeError).
Proof.
  vm_compute. reflexivity.
Qed.

(** Had [flag_outlier_phase] raised [PhaseOutlierFitError], the handler
    would have blanked the cell. *)
Remark handler_blanks_cell (bandpass : ndarray complex128) (time ant pol : Z)
    (body : M (ndarray complex128)) (fs fs' : filesystem) :
  body fs = (fs', Err PhaseOutlierFitError) ->
  try_except body PhaseOutlierFitError
    (lift (set_channels_nan bandpass time ant pol)) fs
  = (fs', set_channels_nan bandpass time ant pol).
Proof.
  intros H. unfold try_except. rewrite H. reflexivity.
Qed.

(** ** Persisting and the closing sanity check *)

Lemma pack_I_inv (z : Z) (r : result (list byte)) :
  pack_I z = r -> r = Ok (le_bytes 4 z) \/ r = Err StructError.
Proof.
  unfold pack_I. destruct (_ && _); intros <-; auto.
Qed.

Lemma save_aosolutions_file_inv (x : AOSolutions.t) (p q : string)
    (fs fs' : filesystem) :
  save_aosolutions_file x p fs = (fs', Ok q) ->
  q = p /\ fs' = <[p := file_image x]> fs.
Proof.
  unfold save_aosolutions_file, bind, open_wb, lift, file_write, ret.
  unfold struct_pack_8s6I2d.
  change (pack_I 0) with (Ok (le_bytes 4 0)). cbn [rbind].
  destruct (pack_I_inv _ _ (eq_refl (pack_I (AOSolutions.nsol x)))) as [-> | ->];
    [cbn [rbind]|discriminate].
  destruct (pack_I_inv _ _ (eq_refl (pack_I (AOSolutions.nant x)))) as [-> | ->];
    [cbn [rbind]|discriminate].
  destruct (pack_I_inv _ _ (eq_refl (pack_I (AOSolutions.nchan x)))) as [-> | ->];
    [cbn [rbind]|discriminate].
  destruct (pack_I_inv _ _ (eq_refl (pack_I (AOSolutions.npol x)))) as [-> | ->];
    [cbn [rbind]|discriminate].
  rewrite lookup_insert_eq. cbn [default].
  rewrite insert_insert_eq, lookup_insert_eq. cbn [default].
  rewrite insert_insert_eq. intros [= <- <-]. split; reflexivity.
Qed.

Lemma for_each_fs {A S} (xs : list A) (body : A -> S -> M S) (s : S) (fs : filesystem) :
  (forall x s' fs', fst (body x s' fs') = fs') ->
  fst (for_each xs body s fs) = fs.
Proof.
  intros Hbody. revert s fs. induction xs as [|x xs IH]; intros s fs; [reflexivity|].
  cbn [for_each]. unfold bind. specialize (Hbody x s fs).
  destruct (body x s fs) as [fs1 [s1|e]]; cbn [fst] in *; subst fs1; [apply IH|reflexivity].
Qed.

Section Finalise.
Context {stats : Statistics} {num : Numerics} {plt : Plotting}
        {env : Collaborators}.

Lemma smoothing_fs (solutions_nsol : Z) (ref_ant : Z)
    (bandpass : ndarray complex128) (fs : filesystem) :
  fst (for_each (arange (Z.to_nat solutions_nsol))
         (fun time bandpass =>
            let* plane := lift (get_time bandpass time) in
            let* complex_gains := lift (divide_bandpass_by_ref_ant plane ref_ant) in
            let* smoothed := lift (smooth_bandpass_complex_gains complex_gains) in
            lift (set_time bandpass time smoothed))
         bandpass fs) = fs.
Proof.
  apply for_each_fs. intros time b fs'. unfold bind, lift.
  destruct (get_time b time); [|reflexivity].
  destruct (divide_bandpass_by_ref_ant _ _); [|reflexivity].
  destruct (smooth_bandpass_complex_gains _); reflexivity.
Qed.

(** What a successful [flag_and_save] returns: the path is the one the
    naming convention derives from [solutions_path]; without plotting, the
    file at that path holds the returned array. *)
Lemma flag_and_save_ok (solutions_path : string) (ref_ant : Z) (flag_cut : float)
    (plot_dir out_solutions_path : option string)
    (smooth_solutions plot_solutions_throughout : bool)
    (fs fs' : filesystem) (bandpass : ndarray complex128) (out : string)
    (plots : list string) :
  flag_and_save solutions_path ref_ant flag_cut plot_dir out_solutions_path
    smooth_solutions plot_solutions_throughout fs
  = (fs', Ok (bandpass, out, plots)) ->
  out = get_aocalibrate_output_path solutions_path true smooth_solutions /\
  (plot_solutions_throughout = false ->
   plots = [] /\
   exists solutions,
     AOSolutions.bandpass solutions = bandpass /\
     fs' !! out = Some (file_image solutions)).
Proof.
  unfold flag_and_save. intros H.
  apply bind_ok in H as (solutions & fs1 & _ & H).
  apply bind_ok in H as (ref & fs2 & _ & H).
  apply bind_ok in H as (plots1 & fs3 & Hplots1 & H).
  apply bind_ok in H as (bandpass1 & fs4 & _ & H).
  apply bind_ok in H as (bandpass2 & fs5 & _ & H).
  apply bind_ok in H as (saved & fs6 & Hsave & H).
  apply bind_ok in H as (plots2 & fs7 & Hplots2 & H).
  apply save_aosolutions_file_inv in Hsave as [_ ->].
  destruct smooth_solutions.
  - apply bind_ok in H as (bandpass3 & fs8 & Hsmooth & H).
    apply bind_ok in H as (saved' & fs9 & Hsave' & H).
    apply bind_ok in H as (plots3 & fs10 & Hplots3 & H).
    apply save_aosolutions_file_inv in Hsave' as [_ ->].
    unfold ret in H. injection H as <- <- <- <-.
    split; [reflexivity|]. intros ->.
    unfold ret in Hplots1, Hplots2, Hplots3.
    injection Hplots1 as <- <-. injection Hplots2 as <- <-.
    injection Hplots3 as <- <-.
    split; [reflexivity|].
    eexists. split; [|apply lookup_insert_eq]. reflexivity.
  - unfold ret in H. injection H as <- <- <- <-.
    split; [reflexivity|]. intros ->.
    unfold ret in Hplots1, Hplots2.
    injection Hplots1 as <- <-. injection Hplots2 as <- <-.
    split; [reflexivity|].
    eexists. split; [|apply lookup_insert_eq]. reflexivity.
Qed.

(** C6 (amended): once the passes are done and the flagged file has been
    written, [flag_aosolutions] compares the fraction of non-finite entries
    of the whole array with 0.8. Above 0.8 it raises [ValueError] and
    returns no [FlaggedAOSolution], else it returns the path and the plots.
    The check writes nothing: without plotting, the solution file saved
    just before it is on disk, holding the over-flagged array. *)
Theorem sanity_check_after_save (solutions_path : string) (ref_ant : Z)
    (flag_cut : float) (plot_dir out_solutions_path : option string)
    (smooth_solutions plot_solutions_throughout : bool)
    (fs fs' : filesystem) (bandpass : ndarray complex128) (out : string)
    (plots : list string) :
  flag_and_save solutions_path ref_ant flag_cut plot_dir out_solutions_path
    smooth_solutions plot_solutions_throughout fs
  = (fs', Ok (bandpass, out, plots)) ->
  flag_aosolutions solutions_path ref_ant flag_cut plot_dir out_solutions_path
    smooth_solutions plot_solutions_throughout fs
  = (fs', if (float_0_8 <? total_flagged bandpass)%float
          then Err ValueError
          else Ok (FlaggedAOSolution.Build out plots)) /\
  (plot_solutions_throughout = false ->
   exists solutions,
     AOSolutions.bandpass solutions = bandpass /\
     fs' !! out = Some (file_image solutions)).
Proof.
  intros Hsave. split.
  - unfold flag_aosolutions, bind. rewrite Hsave.
    destruct (float_0_8 <? total_flagged bandpass)%float; reflexivity.
  - intros Hplot. apply flag_and_save_ok in Hsave as [_ Hfile].
    now destruct (Hfile Hplot).
Qed.

(** C10: the outcome of [flag_aosolutions], the files on disk included,
    is the same whatever [out_solutions_path] is given; the path returned
    is derived from [solutions_path] by the naming convention, with the
    smoothed suffix exactly when smoothing is requested; and without
    plotting the file at that path has been written by the run. *)
Theorem flag_aosolutions_ignores_out_solutions_path (solutions_path : string)
    (ref_ant : Z) (flag_cut : float) (plot_dir : option string)
    (out1 out2 : option string)
    (smooth_solutions plot_solutions_throughout : bool)
    (fs fs' : filesystem) (flagged : FlaggedAOSolution.t) :
  flag_aosolutions solutions_path ref_ant flag_cut plot_dir out1
    smooth_solutions plot_solutions_throughout fs
  = (fs', Ok flagged) ->
  flag_aosolutions solutions_path ref_ant flag_cut plot_dir out2
    smooth_solutions plot_solutions_throughout fs
  = (fs', Ok flagged) /\
  FlaggedAOSolution.path flagged
  = get_aocalibrate_output_path solutions_path true smooth_solutions /\
  (plot_solutions_throughout = false ->
   is_Some (fs' !! FlaggedAOSolution.path flagged)).
Proof.
  intros Hrun. split; [exact Hrun|].
  unfold flag_aosolutions in Hrun.
  apply bind_ok in Hrun as ([[bandpass out] plots] & fs1 & Hsave & Hcheck).
  destruct (float_0_8 <? total_flagged bandpass)%float; [discriminate|].
  unfold ret in Hcheck. injection Hcheck as <- <-. cbn [FlaggedAOSolution.path].
  apply flag_and_save_ok in Hsave as [Hout Hfile].
  split; [exact Hout|].
  intros Hplot. destruct (Hfile Hplot) as (_ & solutions & _ & Hlookup).
  rewrite Hlookup. eauto.
Qed.

(** Also when the run fails, the failure does not depend on
    [out_solutions_path]. *)
Lemma flag_aosolutions_out_solutions_path_unused (solutions_path : string)
    (ref_ant : Z) (flag_cut : float) (plot_dir : option string)
    (out1 out2 : option string)
    (smooth_solutions plot_solutions_throughout : bool) :
  flag_aosolutions solutions_path ref_ant flag_cut plot_dir out1
    smooth_solutions plot_solutions_throughout
  = flag_aosolutions solutions_path ref_ant flag_cut plot_dir out2
      smooth_solutions plot_solutions_throughout.
Proof.
  reflexivity.
Qed.

End Finalise.

(** C6, as stated, fails: on a file that is 85% NaN [flag_aosolutions]
    raises [ValueError], yet the flagged solution file has been written and
    is on disk when the error reaches the caller. *)
Lemma over_flagged_file_is_persisted :
  (float_0_8 <? total_flagged (AOSolutions.bandpass mostly_nan))%float = true /\
  exists fs',
    @flag_aosolutions sequential_statistics exact_fit_numerics no_plotting
      plain_collaborators "cal.bin" (-1) 3%float None None false false
      (disk_with mostly_nan)
    = (fs', Err ValueError) /\
    fs' !! "cal.bin.preflagged"%string = Some (file_image mostly_nan).
Proof.
  split; [vm_compute; reflexivity|].
  eexists. split; vm_compute; reflexivity.
Qed.

(** ** [select_refant] *)

(** C7: on two time solutions the flattened [argmax] returns position 3 of
    the (time, antenna) table of counts. There are two antennas; in the first
    time solution antenna 0 has the most finite entries. *)
Theorem select_refant_flat_argmax :
  select_refant two_epochs = Ok 3 /\
  shape two_epochs = [2; 2; 2; 1] /\
  select_refant_spec two_epochs = Ok 0.
Proof.
  repeat split; vm_compute; reflexivity.
Qed.

(** In [flag_aosolutions] the position returned for a file of two time
    solutions is used as an antenna index and is out of range. *)
Example flag_aosolutions_two_epochs :
  select_refant (AOSolutions.bandpass two_epochs_on_disk) = Ok 3 /\
  @flag_aosolutions sequential_statistics exact_fit_numerics no_plotting
    plain_collaborators "cal.bin" (-1) 3%float None None false false
    (disk_with two_epochs_on_disk)
  = (disk_with two_epochs_on_disk, Err IndexError).
Proof.
  split; vm_compute; reflexivity.
Qed.

Lemma select_refant_rank (bandpass : ndarray complex128) :
  length (shape bandpass) <> 4%nat -> select_refant bandpass = Err AssertionError.
Proof.
  intros H. unfold select_refant.
  destruct (Nat.eqb_spec (length (shape bandpass)) 4); [contradiction|reflexivity].
Qed.

(** With a single time solution the flattened position is the antenna. *)
Lemma select_refant_single_epoch (bandpass : ndarray complex128) (d1 d2 d3 : Z) :
  shape bandpass = [1; d1; d2; d3] ->
  select_refant bandpass = select_refant_spec bandpass.
Proof.
  intros H. unfold select_refant, select_refant_spec. rewrite H.
  cbn [length Nat.eqb py_assert rbind].
  now rewrite Z.mul_1_l.
Qed.

Lemma argmax_from_spec (l : list Z) (best_i : nat) (best_v : Z) (i : nat) :
  (best_i < i)%nat ->
  (argmax_from best_i best_v i l = best_i /\ Forall (fun v => v <= best_v) l) \/
  (exists j v, argmax_from best_i best_v i l = (i + j)%nat /\
               l !! j = Some v /\ best_v < v /\
               Forall (fun w => w < v) (take j l) /\
               Forall (fun w => w <= v) l).
Proof.
  revert best_i best_v i. induction l as [|x l IH]; intros best_i best_v i Hlt.
  - left. split; [reflexivity|constructor].
  - cbn [argmax_from]. destruct (Z.ltb_spec best_v x) as [Hx|Hx].
    + right.
      destruct (IH i x (S i) (Nat.lt_succ_diag_r i))
        as [[Hk Hall]|(j & v & Hk & Hj & Hv & Hpre & Hall)].
      * exists 0%nat, x. rewrite Hk.
        split; [lia|]. split; [reflexivity|]. split; [lia|].
        split; [constructor|]. constructor; [lia|exact Hall].
      * exists (S j), v. rewrite Hk.
        split; [lia|]. split; [exact Hj|]. split; [lia|].
        split; [cbn [take]; constructor; [lia|exact Hpre]|].
        constructor; [lia|exact Hall].
    + destruct (IH best_i best_v (S i) (Nat.lt_lt_succ_r _ _ Hlt))
        as [[Hk Hall]|(j & v & Hk & Hj & Hv & Hpre & Hall)].
      * left. split; [exact Hk|]. constructor; [lia|exact Hall].
      * right. exists (S j), v. rewrite Hk.
        split; [lia|]. split; [exact Hj|]. split; [lia|].
        split; [cbn [take]; constructor; [lia|exact Hpre]|].
        constructor; [lia|exact Hall].
Qed.

(** [np_argmax] returns the position of a maximum, and the first one. *)
Lemma np_argmax_first_max (l : list Z) (k : Z) :
  np_argmax l = Ok k ->
  exists v, l !! Z.to_nat k = Some v /\ 0 <= k /\
            Forall (fun w => w <= v) l /\
            Forall (fun w => w < v) (take (Z.to_nat k) l).
Proof.
  destruct l as [|x l]; [discriminate|]. cbn [np_argmax]. intros [= <-].
  rewrite Nat2Z.id.
  destruct (argmax_from_spec l 0 x 1 Nat.lt_0_1)
    as [[Hk Hall]|(j & v & Hk & Hj & Hv & Hpre & Hall)].
  - rewrite Hk. exists x.
    split; [reflexivity|]. split; [lia|]. split; [|constructor].
    constructor; [lia|exact Hall].
  - rewrite Hk. exists v. cbn [Nat.add take].
    split; [exact Hj|]. split; [lia|]. split.
    + constructor; [lia|exact Hall].
    + constructor; [lia|exact Hpre].
Qed.

(** ** [flags_over_threshold] *)




(** C9: with [ant_idx] left at [None] and a valid [thresh], formatting the
    log line raises [TypeError] and no boolean is returned; with any integer
    [ant_idx] a boolean is returned. *)
Theorem flags_over_threshold_without_ant_idx (flags : ndarray bool) (thresh : float) :
  (0 <=? thresh)%float = true -> (thresh <=? 1)%float = true ->
  flags_over_threshold flags thresh None = Err TypeError /\
  forall ant : Z, exists b : bool,
    flags_over_threshold flags thresh (Some ant) = Ok b.
Proof.
  intros Hlo Hhi. split.
  - unfold flags_over_threshold. rewrite Hlo, Hhi. reflexivity.
  - intros ant. eexists. unfold flags_over_threshold. rewrite Hlo, Hhi. reflexivity.
Qed.

(** ** Worked instances *)

Lemma flag_outlier_phase_cuts_on_modulus_witness :
  @flag_outlier_phase sequential_statistics exact_fit_numerics no_plotting
    [unit_gain; unit_gain] 3%float false None None ∅ = (∅, Ok unit_gain_result) /\
  @residual_phases exact_fit_numerics unit_gain_result = [0%float; 0%float] /\
  PhaseOutlierResults.outlier_mask unit_gain_result = [true; true].
Proof.
  assert (Hrun : @flag_outlier_phase sequential_statistics exact_fit_numerics
                   no_plotting [unit_gain; unit_gain] 3%float false None None ∅
                 = (∅, Ok unit_gain_result)) by (vm_compute; reflexivity).
  split; [exact Hrun|]. split; [reflexivity|].
  destruct (proj1 flag_outlier_phase_cuts_on_modulus sequential_statistics
              exact_fit_numerics no_plotting _ _ _ _ _ _ _ _ Hrun)
    as (_ & _ & Hmask).
  rewrite Hmask. vm_compute. reflexivity.
Defined.

Lemma fit_failure_surfaces_witness :
  (1 =? 0) = false /\
  get_channels (AOSolutions.bandpass two_antennas) 0 0 0 = Ok [unit_gain; unit_gain] /\
  get_channels (AOSolutions.bandpass two_antennas) 0 1 0 = Ok [unit_gain; unit_gain] /\
  @initial_unwrap sequential_statistics failing_fit_numerics
    (zip_with (@c_div failing_fit_numerics) [unit_gain; unit_gain] [unit_gain; unit_gain])
  = Ok ((0%float, 0%float), [unit_gain; unit_gain], [unit_gain; unit_gain]) /\
  @fit_phase_ramp failing_fit_numerics
    (zip_with (@c_div failing_fit_numerics) [unit_gain; unit_gain] [unit_gain; unit_gain])
    [unit_gain; unit_gain]
  = Err RuntimeError /\
  @flag_cell sequential_statistics failing_fit_numerics no_plotting
    plain_collaborators "cal.bin" None 3%float 0 0 0 1
    (AOSolutions.bandpass two_antennas) (disk_with two_antennas)
  = (disk_with two_antennas, Err RuntimeError).
Proof.
  assert (H1 : (1 =? 0) = false) by reflexivity.
  assert (H2 : get_channels (AOSolutions.bandpass two_antennas) 0 0 0
               = Ok [unit_gain; unit_gain]) by (vm_compute; reflexivity).
  assert (H3 : get_channels (AOSolutions.bandpass two_antennas) 0 1 0
               = Ok [unit_gain; unit_gain]) by (vm_compute; reflexivity).
  assert (H4 : @initial_unwrap sequential_statistics failing_fit_numerics
                 (zip_with (@c_div failing_fit_numerics)
                    [unit_gain; unit_gain] [unit_gain; unit_gain])
               = Ok ((0%float, 0%float), [unit_gain; unit_gain],
                     [unit_gain; unit_gain])) by (vm_compute; reflexivity).
  assert (H5 : @fit_phase_ramp failing_fit_numerics
                 (zip_with (@c_div failing_fit_numerics)
                    [unit_gain; unit_gain] [unit_gain; unit_gain])
                 [unit_gain; unit_gain]
               = Err RuntimeError) by reflexivity.
  repeat (split; [assumption|]).
  apply (@fit_failure_surfaces sequential_statistics failing_fit_numerics no_plotting
           plain_collaborators "cal.bin" None 3%float 0 0 0 1
           (AOSolutions.bandpass two_antennas) _ _ _ _ _ (disk_with two_antennas)
           H1 H2 H3 H4 H5).
Defined.

Lemma load_checks_file_type_witness :
  load_aosolutions_file "sol.bin" {["sol.bin"%string := file_of_type_1]}
  = ({["sol.bin"%string := file_of_type_1]}, Err AssertionError) /\
  snd (load_aosolutions_file "sol.bin" {["sol.bin"%string := file_without_magic]})
  = snd (load_aosolutions_file "sol.bin" {["sol.bin"%string := file_with_magic]}) /\
  exists sols,
    snd (load_aosolutions_file "sol.bin" {["sol.bin"%string := file_with_magic]})
    = Ok sols.
Proof.
  split; [|split].
  - apply (proj1 load_checks_file_type "sol.bin" _ file_of_type_1 1).
    + apply lookup_singleton_eq.
    + vm_compute. reflexivity.
    + lia.
  - apply (proj2 load_checks_file_type "sol.bin"
             {["sol.bin"%string := file_with_magic]}
             {["sol.bin"%string := file_without_magic]}
             header_intro (take 8 file_without_magic) (drop 8 file_without_magic)).
    + reflexivity.
    + reflexivity.
    + apply lookup_singleton_eq.
    + apply lookup_singleton_eq.
  - eexists. vm_compute. reflexivity.
Defined.

Lemma unit_gain_valid : valid_element unit_gain.
Proof.
  unfold valid_element, word64, unit_gain, f64_one. cbn [re im]. lia.
Defined.

Lemma single_antenna_valid : valid_solutions single_antenna.
Proof.
  split; unfold extent; cbn; try lia; try reflexivity.
  repeat (constructor; [exact unit_gain_valid|]). constructor.
Defined.

Lemma load_save_round_trip_witness :
  valid_solutions single_antenna /\
  exists fs' image,
    save_aosolutions_file single_antenna "out.bin" ∅ = (fs', Ok "out.bin"%string) /\
    fs' !! "out.bin"%string = Some image /\
    take 16 (drop 32 image) = replicate 16 x00 /\
    load_aosolutions_file "out.bin" fs'
    = (fs', Ok (AOSolutions.Build "out.bin" 1 1 2 4
                  (AOSolutions.bandpass single_antenna))).
Proof.
  split; [exact single_antenna_valid|].
  apply (load_save_round_trip single_antenna "out.bin" ∅ single_antenna_valid).
Defined.

Lemma sanity_check_after_save_witness :
  @flag_and_save sequential_statistics exact_fit_numerics no_plotting
    plain_collaborators "cal.bin" (-1) 3%float None None false false
    (disk_with mostly_nan)
  = (<["cal.bin.preflagged"%string := file_image mostly_nan]> (disk_with mostly_nan),
     Ok (AOSolutions.bandpass mostly_nan, "cal.bin.preflagged"%string, [])) /\
  @flag_aosolutions sequential_statistics exact_fit_numerics no_plotting
    plain_collaborators "cal.bin" (-1) 3%float None None false false
    (disk_with mostly_nan)
  = (<["cal.bin.preflagged"%string := file_image mostly_nan]> (disk_with mostly_nan),
     Err ValueError).
Proof.
  assert (H : @flag_and_save sequential_statistics exact_fit_numerics no_plotting
                plain_collaborators "cal.bin" (-1) 3%float None None false false
                (disk_with mostly_nan)
              = (<["cal.bin.preflagged"%string := file_image mostly_nan]>
                   (disk_with mostly_nan),
                 Ok (AOSolutions.bandpass mostly_nan, "cal.bin.preflagged"%string, [])))
    by (vm_compute; reflexivity).
  split; [exact H|].
  destruct (@sanity_check_after_save sequential_statistics exact_fit_numerics
              no_plotting plain_collaborators _ _ _ _ None _ _ _ _ _ _ _ H)
    as [Hcheck _].
  rewrite Hcheck. reflexivity.
Defined.


Lemma flags_over_threshold_without_ant_idx_witness :
  (0 <=? float_0_8)%float = true /\ (float_0_8 <=? 1)%float = true /\
  flags_over_threshold four_of_five float_0_8 None = Err TypeError.
Proof.
  assert (H1 : (0 <=? float_0_8)%float = true) by reflexivity.
  assert (H2 : (float_0_8 <=? 1)%float = true) by reflexivity.
  repeat (split; [assumption|]).
  apply (flags_over_threshold_without_ant_idx four_of_five float_0_8 H1 H2).
Defined.

Lemma flag_aosolutions_ignores_out_solutions_path_witness :
  @flag_aosolutions sequential_statistics exact_fit_numerics no_plotting
    plain_collaborators "cal.bin" (-1) 3%float None None false false
    (disk_with single_antenna)
  = (<["cal.bin.preflagged"%string := file_image single_antenna]>
       (disk_with single_antenna),
     Ok (FlaggedAOSolution.Build "cal.bin.preflagged" [])) /\
  @flag_aosolutions sequential_statistics exact_fit_numerics no_plotting
    plain_collaborators "cal.bin" (-1) 3%float None (Some "elsewhere.bin"%string)
    false false (disk_with single_antenna)
  = (<["cal.bin.preflagged"%string := file_image single_antenna]>
       (disk_with single_antenna),
     Ok (FlaggedAOSolution.Build "cal.bin.preflagged" [])).
Proof.
  assert (H : @flag_aosolutions sequential_statistics exact_fit_numerics no_plotting
                plain_collaborators "cal.bin" (-1) 3%float None None false false
                (disk_with single_antenna)
              = (<["cal.bin.preflagged"%string := file_image single_antenna]>
                   (disk_with single_antenna),
                 Ok (FlaggedAOSolution.Build "cal.bin.preflagged" [])))
    by (vm_compute; reflexivity).
  split; [exact H|].
  apply (@flag_aosolutions_ignores_out_solutions_path sequential_statistics
           exact_fit_numerics no_plotting plain_collaborators _ _ _ _ None
           (Some "elsewhere.bin"%string) _ _ _ _ _ H).
Defined.

(** * Further properties of the codec *)

Lemma le_value_range (bs : list byte) :
  0 <= le_value bs < 256 ^ Z.of_nat (length bs).
Proof.
  induction bs as [|b bs IH]; [cbn; lia|].
  cbn [le_value length]. rewrite Nat2Z.inj_succ, Z.pow_succ_r by lia.
  pose proof (Z_of_byte_range b). lia.
Qed.

Lemma to_signed_32_range (u : Z) :
  0 <= u < 2 ^ 32 -> - 2 ^ 31 <= to_signed 32 u < 2 ^ 31.
Proof.
  intros H. unfold to_signed. change (32 - 1) with 31.
  destruct (Z.ltb_spec u (2 ^ 31)); lia.
Qed.

Lemma fromfile_i4_int32 (n : nat) (bs : list byte) :
  Forall (fun z => - 2 ^ 31 <= z < 2 ^ 31) (fst (fromfile_i4 n bs)).
Proof.
  revert bs. induction n as [|n IH]; intros bs; [constructor|].
  destruct bs as [|b0 [|b1 [|b2 [|b3 rest]]]]; try (cbn; constructor).
  rewrite fromfile_i4_cons. cbn [fst]. constructor; [|apply IH].
  apply to_signed_32_range. apply (le_value_range [b0; b1; b2; b3]).
Qed.

Lemma fromfile_i4_rest (n : nat) (bs : list byte) :
  (length (snd (fromfile_i4 n bs)) <= length bs)%nat.
Proof.
  revert bs. induction n as [|n IH]; intros bs; [cbn; lia|].
  destruct bs as [|b0 [|b1 [|b2 [|b3 rest]]]]; try (cbn; lia).
  rewrite fromfile_i4_cons. cbn [snd length]. specialize (IH rest). lia.
Qed.

Lemma fromfile_c16_nat_valid (n : nat) (bs : list byte) :
  Forall valid_element (fromfile_c16_nat n bs).
Proof.
  revert bs. induction n as [|n IH]; intros bs; [constructor|].
  cbn [fromfile_c16_nat].
  do 16 (destruct bs as [|? bs]; [constructor|]).
  constructor; [|apply IH].
  split; cbn [re im]; unfold word64.
  - match goal with |- _ <= le_value ?l < _ => apply (le_value_range l) end.
  - match goal with |- _ <= le_value ?l < _ => apply (le_value_range l) end.
Qed.

Lemma fromfile_c16_nat_length (n : nat) (bs : list byte) :
  (length (fromfile_c16_nat n bs) <= n)%nat /\
  (16 * length (fromfile_c16_nat n bs) <= length bs)%nat.
Proof.
  revert bs. induction n as [|n IH]; intros bs; [cbn; lia|].
  cbn [fromfile_c16_nat].
  do 16 (destruct bs as [|? bs]; [cbn; lia|]).
  cbn [length]. destruct (IH bs). lia.
Qed.

Lemma fromfile_c16_valid (count : Z) (bs : list byte) :
  Forall valid_element (fromfile_c16 count bs).
Proof.
  unfold fromfile_c16. destruct (count <? 0); apply fromfile_c16_nat_valid.
Qed.

Lemma np_reshape_nonneg (size : Z) (dims shp : list Z) :
  Forall (fun d => 0 <= d) dims ->
  np_reshape size dims = Ok shp -> shp = dims /\ np_prod dims = size.
Proof.
  intros Hpos. unfold np_reshape.
  assert (E : List.filter (fun d => d <? 0) dims = []).
  { induction Hpos as [|d l Hd _ IH]; [reflexivity|].
    cbn [List.filter]. destruct (Z.ltb_spec d 0); [lia|exact IH]. }
  rewrite E. destruct (Z.eqb_spec (np_prod dims) size); [|discriminate].
  now intros [= <-].
Qed.

(** What a successful load returns, read off [load_aosolutions_file]. *)
Lemma load_aosolutions_file_inv (p : string) (fs fs' : filesystem) (x : AOSolutions.t) :
  load_aosolutions_file p fs = (fs', Ok x) ->
  fs' = fs /\
  AOSolutions.path x = p /\
  Forall (fun z => - 2 ^ 31 <= z < 2 ^ 31)
    [AOSolutions.nsol x; AOSolutions.nant x; AOSolutions.nchan x; AOSolutions.npol x] /\
  Forall valid_element (data (AOSolutions.bandpass x)) /\
  exists bs,
    fs !! p = Some bs /\
    (16 * length (data (AOSolutions.bandpass x)) <= length bs)%nat /\
    np_reshape (Z.of_nat (length (data (AOSolutions.bandpass x))))
      [AOSolutions.nsol x; AOSolutions.nant x; AOSolutions.nchan x; AOSolutions.npol x]
    = Ok (shape (AOSolutions.bandpass x)).
Proof.
  unfold load_aosolutions_file.
  destruct (fs !! p) as [bs|] eqn:Hfile; [|discriminate].
  destruct (fromfile_i4 2 bs) as [junk r1] eqn:E1.
  pose proof (fromfile_i4_int32 10 r1) as Hint.
  destruct (fromfile_i4 10 r1) as [header r2] eqn:E2. cbn [fst] in Hint.
  intros [= <- H]. split; [reflexivity|]. revert H.
  destruct (header !! 0%nat) as [ft|]; [|discriminate].
  destruct (py_assert (ft =? 0)); [|discriminate]. cbn [rbind].
  destruct (header !! 1%nat) as [st|]; [|discriminate].
  destruct header as [|h0 [|h1 [|n1 [|n2 [|n3 [|n4 rest]]]]]];
    cbn [drop take]; try discriminate.
  destruct rest as [|? ?]; cbn [take].
  all: set (items := fromfile_c16 _ r2);
    destruct (np_reshape (Z.of_nat (length items)) [n1; n2; n3; n4]) as [shp|] eqn:Hshape;
    [|discriminate]; cbn [rbind]; intros [= <-];
    cbn [AOSolutions.path AOSolutions.nsol AOSolutions.nant AOSolutions.nchan
         AOSolutions.npol AOSolutions.bandpass data shape].
  all: split; [reflexivity|].
  all: split;
    [repeat match goal with
            | Hall : Forall _ (_ :: _) |- _ => inversion Hall; clear Hall; subst
            end;
     repeat (apply List.Forall_cons; [assumption|]); apply List.Forall_nil|].
  all: split; [apply fromfile_c16_valid|].
  all: exists bs; split; [reflexivity|]; split; [|exact Hshape].
  all: pose proof (fromfile_i4_rest 2 bs) as L1; rewrite E1 in L1; cbn [snd] in L1.
  all: pose proof (fromfile_i4_rest 10 r1) as L2; rewrite E2 in L2; cbn [snd] in L2.
  all: unfold items, fromfile_c16; destruct (_ <? 0).
  all: match goal with
       | |- context [fromfile_c16_nat ?k ?r] =>
           pose proof (proj2 (fromfile_c16_nat_length k r))
       end; lia.
Qed.

(** X1: a solution set that loads with four positive extents, from a file
    of fewer than 2^63 bytes, is well formed (the array has the shape and
    the number of elements the header announces, every extent is a positive
    [int32], every element is a pair of 64-bit words), and loading leaves
    the files as they were. *)
Theorem load_returns_valid (p : string) (fs fs' : filesystem) (x : AOSolutions.t) :
  load_aosolutions_file p fs = (fs', Ok x) ->
  (forall bs, fs !! p = Some bs -> Z.of_nat (length bs) < 2 ^ 63) ->
  1 <= AOSolutions.nsol x -> 1 <= AOSolutions.nant x ->
  1 <= AOSolutions.nchan x -> 1 <= AOSolutions.npol x ->
  fs' = fs /\ AOSolutions.path x = p /\ valid_solutions x.
Proof.
  intros Hload Hsize H1 H2 H3 H4.
  apply load_aosolutions_file_inv in Hload
    as (-> & Hpath & Hint & Hwords & bs & Hfile & Hlen & Hshape).
  split; [reflexivity|]. split; [exact Hpath|].
  apply np_reshape_nonneg in Hshape as [Hshp Hprod];
    [|repeat (apply List.Forall_cons; [lia|]); apply List.Forall_nil].
  inversion Hint as [|? ? I1 Hint1]; subst.
  inversion Hint1 as [|? ? I2 Hint2]; subst.
  inversion Hint2 as [|? ? I3 Hint3]; subst.
  inversion Hint3 as [|? ? I4 _]; subst.
  specialize (Hsize bs Hfile).
  split; unfold extent; try lia; try assumption.
  - now rewrite Hshp.
  - rewrite Hshp. lia.
Qed.

Lemma file_image_split (x : AOSolutions.t) :
  file_image x = header_image x ++ tofile (AOSolutions.bandpass x).
Proof.
  unfold file_image, header_image. now rewrite <- !app_assoc.
Qed.

(** Loading a file that starts with the header of [x]: only the reading of
    the array is left. *)
Lemma load_header_image (x : AOSolutions.t) (p : string) (fs : filesystem)
    (body : list byte) :
  0 <= AOSolutions.nsol x < 2 ^ 31 -> 0 <= AOSolutions.nant x < 2 ^ 31 ->
  0 <= AOSolutions.nchan x < 2 ^ 31 -> 0 <= AOSolutions.npol x < 2 ^ 31 ->
  fs !! p = Some (header_image x ++ body) ->
  load_aosolutions_file p fs =
  (fs,
   let dims := [AOSolutions.nsol x; AOSolutions.nant x;
                AOSolutions.nchan x; AOSolutions.npol x] in
   let items := fromfile_c16 (wrap_int64 (np_prod dims)) body in
   let? shp := np_reshape (Z.of_nat (length items)) dims in
   Ok (AOSolutions.Build p (AOSolutions.nsol x) (AOSolutions.nant x)
         (AOSolutions.nchan x) (AOSolutions.npol x) (NdArray shp items))).
Proof.
  intros H1 H2 H3 H4 Hfile.
  unfold load_aosolutions_file. rewrite Hfile.
  unfold header_image. rewrite <- !app_assoc.
  change (fromfile_i4 2 (header_intro ++ ?l))
    with (fst (fromfile_i4 2 header_intro), l).
  cbv iota beta.
  rewrite fromfile_i4_header by lia.
  reflexivity.
Qed.

(** X2: a file with a well-formed header but fewer array bytes than the
    header announces is never loaded: [load_aosolutions_file] returns no
    solution set and leaves the files as they were. Here the items that are
    there are read and the reshape to the announced extents fails; where
    numpy cannot allocate the announced buffer it raises before it reads,
    and the load fails all the same. *)
Theorem load_truncated (x : AOSolutions.t) (p : string) (fs : filesystem)
    (body : list byte) :
  0 <= AOSolutions.nsol x < 2 ^ 31 -> 0 <= AOSolutions.nant x < 2 ^ 31 ->
  0 <= AOSolutions.nchan x < 2 ^ 31 -> 0 <= AOSolutions.npol x < 2 ^ 31 ->
  fs !! p = Some (header_image x ++ body) ->
  Z.of_nat (length body) <
  16 * (AOSolutions.nsol x * AOSolutions.nant x * AOSolutions.nchan x * AOSolutions.npol x) ->
  fst (load_aosolutions_file p fs) = fs /\
  forall loaded, snd (load_aosolutions_file p fs) <> Ok loaded.
Proof.
  intros H1 H2 H3 H4 Hfile Hshort.
  rewrite (load_header_image x p fs body H1 H2 H3 H4 Hfile). cbv zeta.
  cbn [fst snd]. split; [reflexivity|]. intros loaded.
  set (dims := [AOSolutions.nsol x; AOSolutions.nant x;
                AOSolutions.nchan x; AOSolutions.npol x]).
  set (items := fromfile_c16 (wrap_int64 (np_prod dims)) body).
  assert (Hitems : (16 * length items <= length body)%nat).
  { unfold items, fromfile_c16. destruct (_ <? 0); apply fromfile_c16_nat_length. }
  assert (Hprod : np_prod dims =
                  AOSolutions.nsol x * AOSolutions.nant x
                  * AOSolutions.nchan x * AOSolutions.npol x).
  { unfold dims, np_prod. cbn [fold_right]. ring. }
  destruct (np_reshape (Z.of_nat (length items)) dims) as [shp|e] eqn:E.
  - apply np_reshape_nonneg in E as [_ E];
      [|unfold dims; repeat (apply List.Forall_cons; [lia|]); apply List.Forall_nil].
    lia.
  - cbn [rbind]. discriminate.
Qed.

(** X3: whatever follows the last announced element is not read: a valid
    solution file with trailing bytes loads as the file without them. *)
Theorem load_ignores_trailing_bytes (x : AOSolutions.t) (p : string)
    (fs : filesystem) (extra : list byte) :
  valid_solutions x ->
  fs !! p = Some (file_image x ++ extra) ->
  load_aosolutions_file p fs =
  (fs, Ok (AOSolutions.Build p (AOSolutions.nsol x) (AOSolutions.nant x)
             (AOSolutions.nchan x) (AOSolutions.npol x) (AOSolutions.bandpass x))).
Proof.
  intros [H1 H2 H3 H4 Hshape Hsize Haddr Hwords] Hfile. unfold extent in *.
  rewrite file_image_split, <- app_assoc in Hfile.
  rewrite (load_header_image x p fs _ ltac:(lia) ltac:(lia) ltac:(lia) ltac:(lia) Hfile).
  cbv zeta. rewrite <- Hshape.
  assert (Hcount : wrap_int64 (np_prod (shape (AOSolutions.bandpass x))) =
                   Z.of_nat (length (data (AOSolutions.bandpass x)))).
  { rewrite Hsize. unfold wrap_int64.
    assert (0 <= np_prod (shape (AOSolutions.bandpass x))) by lia.
    rewrite Z.mod_small by lia. apply to_signed_small. lia. }
  rewrite Hcount. unfold fromfile_c16.
  destruct (Z.ltb_spec (Z.of_nat (length (data (AOSolutions.bandpass x)))) 0); [lia|].
  rewrite Nat2Z.id. unfold tofile.
  rewrite fromfile_c16_nat_tofile by exact Hwords.
  rewrite np_reshape_exact.
  - cbn [rbind]. destruct x as [xp n1 n2 n3 n4 [shp dat]]. cbn in *.
    subst shp. reflexivity.
  - rewrite Hshape. repeat constructor; lia.
  - now rewrite Hsize.
Qed.

Lemma pack_I_range (z : Z) :
  pack_I z = if (0 <=? z) && (z <? 2 ^ 32) then Ok (le_bytes 4 z) else Err StructError.
Proof.
  reflexivity.
Qed.

Lemma save_aosolutions_file_cases (x : AOSolutions.t) (p : string) (fs : filesystem) :
  save_aosolutions_file x p fs =
  if packable x then (<[p := file_image x]> fs, Ok p)
  else (<[p := []]> fs, Err StructError).
Proof.
  unfold save_aosolutions_file, bind, open_wb, lift, file_write, ret.
  unfold struct_pack_8s6I2d, packable. cbn [forallb].
  change (pack_I 0) with (Ok (le_bytes 4 0)). cbn [rbind].
  rewrite !pack_I_range.
  destruct ((0 <=? AOSolutions.nsol x) && (AOSolutions.nsol x <? 2 ^ 32));
    cbn [rbind andb]; [|reflexivity].
  destruct ((0 <=? AOSolutions.nant x) && (AOSolutions.nant x <? 2 ^ 32));
    cbn [rbind andb]; [|reflexivity].
  destruct ((0 <=? AOSolutions.nchan x) && (AOSolutions.nchan x <? 2 ^ 32));
    cbn [rbind andb]; [|reflexivity].
  destruct ((0 <=? AOSolutions.npol x) && (AOSolutions.npol x <? 2 ^ 32));
    cbn [rbind andb]; [|reflexivity].
  rewrite lookup_insert_eq. cbn [default].
  rewrite insert_insert_eq, lookup_insert_eq. cbn [default].
  rewrite insert_insert_eq. reflexivity.
Qed.

(** X4: when one of the four extents does not fit an unsigned 32-bit field,
    [save_aosolutions_file] raises [struct.error] after the output file has
    been opened for writing: whatever was stored at [output_path] is lost and
    an empty file is left there. *)
Theorem save_failure_truncates (x : AOSolutions.t) (p : string) (fs : filesystem) :
  packable x = false ->
  save_aosolutions_file x p fs = (<[p := []]> fs, Err StructError) /\
  fst (save_aosolutions_file x p fs) !! p = Some [].
Proof.
  intros H. rewrite save_aosolutions_file_cases, H. cbn [fst].
  split; [reflexivity|apply lookup_insert_eq].
Qed.

(** X5: whether it succeeds or fails, [save_aosolutions_file] changes no
    file other than the one at [output_path]; a second save to the same path
    replaces the first. *)
Theorem save_writes_one_file (x y : AOSolutions.t) (p q : string) (fs : filesystem) :
  (q <> p -> fst (save_aosolutions_file x p fs) !! q = fs !! q) /\
  fst (save_aosolutions_file y p (fst (save_aosolutions_file x p fs)))
  = fst (save_aosolutions_file y p fs).
Proof.
  rewrite !save_aosolutions_file_cases. split.
  - intros Hne. destruct (packable x); cbn [fst]; now rewrite lookup_insert_ne.
  - destruct (packable x), (packable y); cbn [fst]; apply insert_insert_eq.
Qed.

(** * Further properties of [select_refant] *)

Lemma chunks_length {A} (n count : nat) (l : list A) :
  length (chunks n count l) = count.
Proof.
  revert l. induction count as [|c IH]; intros l; [reflexivity|].
  cbn [chunks length]. now rewrite IH.
Qed.

Lemma chunks_lookup {A} (n count a : nat) (l : list A) :
  (a < count)%nat ->
  chunks n count l !! a = Some (take n (drop (a * n) l)).
Proof.
  revert a l. induction count as [|c IH]; intros a l Ha; [lia|].
  cbn [chunks]. destruct a as [|a].
  - reflexivity.
  - cbn [lookup list_lookup]. change (list_lookup a (chunks n c (drop n l)))
      with (chunks n c (drop n l) !! a).
    rewrite IH by lia. rewrite drop_drop. repeat f_equal.
Qed.

Lemma finite_in_antenna_chunk (bandpass : ndarray complex128) (d1 d2 d3 a : Z) :
  shape bandpass = [1; d1; d2; d3] ->
  0 <= a < d1 -> 0 <= d2 -> 0 <= d3 ->
  finite_in_antenna bandpass a =
  count_true (take (Z.to_nat (d2 * d3))
                (drop (Z.to_nat a * Z.to_nat (d2 * d3))
                   (map isfinite_c (data bandpass)))).
Proof.
  intros Hshape Ha H2 H3. unfold finite_in_antenna, get_antenna, dims4.
  rewrite Hshape. cbn [rbind]. unfold np_index.
  change ((0 <=? 0) && (0 <? 1)) with true. cbn [rbind].
  destruct (Z.leb_spec 0 a); [|lia]. destruct (Z.ltb_spec a d1); [|lia].
  cbn [andb rbind data]. unfold offset4.
  replace (Z.to_nat (((0 * d1 + a) * d2 + 0) * d3 + 0))
    with (Z.to_nat a * Z.to_nat (d2 * d3))%nat by nia.
  change (map isfinite_c ?l) with (isfinite_c <$> l).
  now rewrite fmap_take, fmap_drop.
Qed.

(** X6: on an array with a single time solution and at least one antenna,
    [select_refant] returns an antenna index; that antenna has the largest
    number of finite entries, and every antenna before it has strictly
    fewer. *)
Theorem select_refant_single_epoch_max (bandpass : ndarray complex128)
    (d1 d2 d3 : Z) :
  shape bandpass = [1; d1; d2; d3] ->
  1 <= d1 -> 0 <= d2 -> 0 <= d3 ->
  exists k,
    select_refant bandpass = Ok k /\ 0 <= k < d1 /\
    forall a, 0 <= a < d1 ->
      finite_in_antenna bandpass a <= finite_in_antenna bandpass k /\
      (a < k -> finite_in_antenna bandpass a < finite_in_antenna bandpass k).
Proof.
  intros Hshape H1 H2 H3.
  unfold select_refant. rewrite Hshape.
  cbn [length Nat.eqb py_assert rbind]. rewrite Z.mul_1_l.
  set (n := Z.to_nat (d2 * d3)).
  set (mask := map isfinite_c (data bandpass)).
  set (counts := map count_true (chunks n (Z.to_nat d1) mask)).
  assert (Hlen : length counts = Z.to_nat d1).
  { unfold counts. now rewrite length_map, chunks_length. }
  assert (Hlook : forall a, 0 <= a < d1 ->
             counts !! Z.to_nat a = Some (finite_in_antenna bandpass a)).
  { intros a Ha. unfold counts.
    change (map count_true ?l) with (count_true <$> l).
    rewrite list_lookup_fmap, chunks_lookup by lia. cbn [fmap option_fmap option_map].
    now rewrite (finite_in_antenna_chunk bandpass d1 d2 d3 a). }
  destruct (np_argmax counts) as [k|e] eqn:Hk.
  - destruct (np_argmax_first_max counts k Hk) as (v & Hv & Hk0 & Hmax & Hfirst).
    assert (Hkd : k < d1).
    { apply lookup_lt_Some in Hv. lia. }
    exists k. split; [reflexivity|]. split; [lia|].
    rewrite Hlook in Hv by lia. injection Hv as <-.
    intros a Ha. split.
    + rewrite Forall_lookup in Hmax. apply (Hmax (Z.to_nat a)). now apply Hlook.
    + intros Hak. rewrite Forall_lookup in Hfirst.
      apply (Hfirst (Z.to_nat a)).
      rewrite lookup_take_lt by lia. now apply Hlook.
  - exfalso. destruct counts; [cbn in Hlen; lia|discriminate].
Qed.

(** X7: the failures of [select_refant]. An array that does not have four
    dimensions fails the assertion; a four-dimensional array without any
    (time, antenna) pair has no maximum and raises [ValueError]. *)
Theorem select_refant_errors (bandpass : ndarray complex128) :
  (length (shape bandpass) <> 4%nat -> select_refant bandpass = Err AssertionError) /\
  (forall d0 d1 d2 d3,
      shape bandpass = [d0; d1; d2; d3] -> d0 * d1 <= 0 ->
      select_refant bandpass = Err ValueError).
Proof.
  split.
  - intros H. unfold select_refant.
    destruct (Nat.eqb_spec (length (shape bandpass)) 4); [contradiction|reflexivity].
  - intros d0 d1 d2 d3 Hshape Hempty. unfold select_refant. rewrite Hshape.
    cbn [length Nat.eqb py_assert rbind].
    replace (Z.to_nat (d0 * d1)) with 0%nat by lia. reflexivity.
Qed.

(** * Further properties of the preflagger *)

Lemma ltb_nan_r (t : float) : (t <? nan)%float = false.
Proof.
  rewrite FloatAxioms.ltb_spec. unfold SFltb.
  change (Prim2SF nan) with S754_nan.
  destruct (Prim2SF t) as [s|s| |s m e]; reflexivity.
Qed.

(** X8: an array without entries is never over the threshold: the flagged
    fraction is 0/0, a NaN, and no comparison with a NaN holds. *)
Theorem flags_over_threshold_empty (flags : ndarray bool) (thresh : float) (ant : Z) :
  (0 <=? thresh)%float = true -> (thresh <=? 1)%float = true ->
  data flags = [] -> np_prod (shape flags) = 0 ->
  flags_over_threshold flags thresh (Some ant) = Ok false.
Proof.
  intros Hlo Hhi Hdata Hshape. unfold flags_over_threshold.
  rewrite Hlo, Hhi, Hdata, Hshape. cbn [andb py_assert rbind format_02d].
  change (Z2float (count_true []) / Z2float 0)%float with nan.
  now rewrite ltb_nan_r.
Qed.

Section PhaseLengths.
Context {stats : Statistics} {num : Numerics} {plt : Plotting}.

Lemma length_arange (n : nat) : length (arange n) = n.
Proof.
  unfold arange. now rewrite length_map, length_seq.
Qed.

Lemma length_complex_gain_model (xs : list Z) (g o : float) :
  length (complex_gain_model xs g o) = length xs.
Proof.
  unfold complex_gain_model. apply length_map.
Qed.

Lemma initial_unwrap_lengths (complex_gains : list complex128)
    (init_p0 : float * float) (init_model unwrapped : list complex128) :
  initial_unwrap complex_gains = Ok (init_p0, init_model, unwrapped) ->
  length init_model = length complex_gains /\
  length unwrapped = length complex_gains.
Proof.
  unfold initial_unwrap.
  destruct (mask_select _ _); [discriminate|]. cbn [rbind].
  intros [= _ <- <-].
  rewrite length_zip_with, !length_complex_gain_model, length_arange. lia.
Qed.

Lemma length_phase_outlier_cut (residuals : list float) (flag_cut : float)
    (use_mad : bool) :
  length (fst (fst (phase_outlier_cut residuals flag_cut use_mad)))
  = length residuals.
Proof.
  rewrite phase_outlier_cut_eq. cbn [fst]. apply length_map.
Qed.

(** X9: in a result of [flag_outlier_phase] the outlier mask and both
    model arrays are aligned with the channels: each has exactly one entry
    per input gain. *)
Theorem flag_outlier_phase_aligned (complex_gains : list complex128)
    (flag_cut : float) (use_mad : bool) (plot_title plot_path : option string)
    (fs fs' : filesystem) (res : PhaseOutlierResults.t) :
  flag_outlier_phase complex_gains flag_cut use_mad plot_title plot_path fs
  = (fs', Ok res) ->
  length (PhaseOutlierResults.outlier_mask res) = length complex_gains /\
  length (PhaseOutlierResults.init_model_gains res) = length complex_gains /\
  length (PhaseOutlierResults.fit_model_gains res) = length complex_gains.
Proof.
  unfold flag_outlier_phase. intros H.
  apply bind_ok in H as ([[init_p0 init_model] unwrapped] & fs1 & Hinit & H).
  apply lift_ok in Hinit as [Hinit ->].
  apply bind_ok in H as (results & fs2 & Hfit & H).
  apply lift_ok in Hfit as [_ ->].
  apply initial_unwrap_lengths in Hinit as [Hmodel Hunwrapped].
  match type of H with
  | context [phase_outlier_cut ?r flag_cut use_mad] =>
      pose proof (length_phase_outlier_cut r flag_cut use_mad) as Hlen;
      remember (phase_outlier_cut r flag_cut use_mad) as cut eqn:Ecut
  end.
  destruct cut as [[mask m] s]. cbn [fst] in Hlen.
  apply bind_ok in H as (p & fs3 & _ & H).
  unfold ret in H. injection H as _ <-.
  cbn [PhaseOutlierResults.outlier_mask PhaseOutlierResults.init_model_gains
       PhaseOutlierResults.fit_model_gains].
  rewrite Hlen, length_map, length_zip_with, Hunwrapped,
    length_complex_gain_model, length_arange.
  repeat split; [lia|exact Hmodel].
Qed.

(** X10: without a single finite gain (an empty array included) there is
    no first valid phase to start from: [flag_outlier_phase] raises
    [IndexError], and draws nothing. *)
Theorem flag_outlier_phase_no_finite_gain (complex_gains : list complex128)
    (flag_cut : float) (use_mad : bool) (plot_title plot_path : option string)
    (fs : filesystem) :
  existsb isfinite_c complex_gains = false ->
  flag_outlier_phase complex_gains flag_cut use_mad plot_title plot_path fs
  = (fs, Err IndexError).
Proof.
  intros Hnone. unfold flag_outlier_phase, bind, lift, initial_unwrap.
  assert (Hnil : mask_select (map isfinite_c complex_gains)
                   (map np_angle complex_gains) = []).
  { induction complex_gains as [|c l IH]; [reflexivity|].
    cbn [existsb] in Hnone. apply orb_false_iff in Hnone as [Hc Hl].
    cbn [map mask_select]. rewrite Hc. now apply IH. }
  rewrite Hnil. reflexivity.
Qed.

End PhaseLengths.

(** * Invariants of the flagging passes *)

Lemma blanked_from_refl (a : ndarray complex128) : blanked_from a a.
Proof.
  split; [reflexivity|]. apply Forall2_same_length_lookup_2; [reflexivity|].
  intros i x y Hx Hy. left. congruence.
Qed.

Lemma blanked_from_trans (a b c : ndarray complex128) :
  blanked_from a b -> blanked_from b c -> blanked_from a c.
Proof.
  intros [Hs1 H1] [Hs2 H2]. split; [congruence|].
  revert H2. generalize (data c). induction H1 as [|x y l k Hxy _ IH]; intros k' H2.
  - inversion H2. constructor.
  - inversion H2 as [|y' z k1 k2 Hyz Hrest]; subst. constructor; [|now apply IH].
    destruct Hyz as [-> | ->]; [exact Hxy|now right].
Qed.

Lemma Forall2_blank_insert (l k : list complex128) (i : nat) :
  Forall2 (fun old new => new = old \/ new = nan_c) l k ->
  Forall2 (fun old new => new = old \/ new = nan_c) l (<[i := nan_c]> k).
Proof.
  intros H. revert i. induction H as [|x y l k Hxy Hrest IH]; intros i; [constructor|].
  destruct i as [|i]; cbn [insert list_insert].
  - constructor; [now right|exact Hrest].
  - constructor; [exact Hxy|apply IH].
Qed.

Lemma Forall2_blank (positions : list nat) (l k : list complex128) :
  Forall2 (fun old new => new = old \/ new = nan_c) l k ->
  Forall2 (fun old new => new = old \/ new = nan_c) l (blank positions k).
Proof.
  unfold blank. revert k. induction positions as [|i ps IH]; intros k H; [exact H|].
  cbn [fold_left]. apply IH. now apply Forall2_blank_insert.
Qed.

Lemma blanked_from_blank (a : ndarray complex128) (positions : list nat) :
  blanked_from a (NdArray (shape a) (blank positions (data a))).
Proof.
  split; [reflexivity|]. cbn [data]. apply Forall2_blank.
  apply (proj2 (blanked_from_refl a)).
Qed.

Lemma set_masked_nan_blanked (a a' : ndarray complex128) (time ant : Z)
    (mask : list bool) (pol : Z) :
  set_masked_nan a time ant mask pol = Ok a' -> blanked_from a a'.
Proof.
  unfold set_masked_nan.
  destruct (dims4 a) as [[[[d0 d1] d2] d3]|]; [|discriminate]. cbn [rbind].
  destruct (np_index d0 time); [|discriminate]. cbn [rbind].
  destruct (np_index d1 ant); [|discriminate]. cbn [rbind].
  destruct (np_index d3 pol); [|discriminate]. cbn [rbind].
  destruct (negb _); [discriminate|]. intros [= <-]. apply blanked_from_blank.
Qed.

Lemma set_channels_nan_blanked (a a' : ndarray complex128) (time ant pol : Z) :
  set_channels_nan a time ant pol = Ok a' -> blanked_from a a'.
Proof.
  unfold set_channels_nan.
  destruct (dims4 a) as [[[[d0 d1] d2] d3]|]; [|discriminate]. cbn [rbind].
  apply set_masked_nan_blanked.
Qed.

Lemma set_antenna_nan_blanked (a a' : ndarray complex128) (time ant : Z) :
  set_antenna_nan a time ant = Ok a' -> blanked_from a a'.
Proof.
  unfold set_antenna_nan.
  destruct (dims4 a) as [[[[d0 d1] d2] d3]|]; [|discriminate]. cbn [rbind].
  destruct (np_index d0 time); [|discriminate]. cbn [rbind].
  destruct (np_index d1 ant); [|discriminate]. cbn [rbind].
  intros [= <-]. apply blanked_from_blank.
Qed.

Lemma try_except_ok {A} (body handler : M A) (cls : exn) (fs fs' : filesystem) (a : A) :
  try_except body cls handler fs = (fs', Ok a) ->
  body fs = (fs', Ok a) \/
  exists fs1, body fs = (fs1, Err cls) /\ handler fs1 = (fs', Ok a).
Proof.
  unfold try_except. destruct (body fs) as [fs1 [x|e]].
  - intros [= <- <-]. now left.
  - destruct e, cls; cbn [exn_eqb]; try discriminate; intros H; right; eauto.
Qed.

Lemma for_each_rel {A S} (R : S -> S -> Prop) (xs : list A) (body : A -> S -> M S) :
  (forall s, R s s) ->
  (forall s1 s2 s3, R s1 s2 -> R s2 s3 -> R s1 s3) ->
  (forall x s fs fs' s', In x xs -> body x s fs = (fs', Ok s') -> R s s') ->
  forall s fs fs' s', for_each xs body s fs = (fs', Ok s') -> R s s'.
Proof.
  intros Hrefl Htrans. induction xs as [|x xs IH]; intros Hbody s fs fs' s' H.
  - cbn [for_each] in H. unfold ret in H. injection H as _ <-. apply Hrefl.
  - cbn [for_each] in H. apply bind_ok in H as (s1 & fs1 & H1 & H2).
    apply (Htrans s s1 s').
    + apply (Hbody x s fs fs1 s1); [now left|exact H1].
    + apply (IH (fun y t f f' t' Hy => Hbody y t f f' t' (or_intror Hy)) s1 fs1 fs' s' H2).
Qed.

Section PassInvariants.
Context {stats : Statistics} {num : Numerics} {plt : Plotting}
        {env : Collaborators}.

Lemma flag_cell_blanked (title : string) (plot_dir : option string)
    (flag_cut : float) (ref_ant time pol ant : Z)
    (bandpass bandpass' : ndarray complex128) (fs fs' : filesystem) :
  flag_cell title plot_dir flag_cut ref_ant time pol ant bandpass fs
  = (fs', Ok bandpass') ->
  blanked_from bandpass bandpass'.
Proof.
  unfold flag_cell. destruct (ant =? ref_ant).
  { unfold ret. intros [= _ <-]. apply blanked_from_refl. }
  intros H.
  apply bind_ok in H as (ref_gains & fs1 & _ & H).
  apply bind_ok in H as (gains & fs2 & _ & H).
  destruct (count_true _ =? 0).
  { unfold ret in H. injection H as _ <-. apply blanked_from_refl. }
  apply bind_ok in H as (b1 & fs3 & Htry & H).
  assert (Hb1 : blanked_from bandpass b1).
  { apply try_except_ok in Htry as [Hbody|(fs4 & _ & Hhandler)].
    - apply bind_ok in Hbody as (res & fs4 & _ & Hset).
      apply lift_ok in Hset as [Hset _]. now apply set_masked_nan_blanked in Hset.
    - apply lift_ok in Hhandler as [Hset _]. now apply set_channels_nan_blanked in Hset. }
  apply bind_ok in H as (current & fs4 & _ & H).
  apply bind_ok in H as (over & fs5 & _ & H).
  apply bind_ok in H as (b2 & fs6 & Hover & H).
  assert (Hb2 : blanked_from b1 b2).
  { destruct over.
    - apply lift_ok in Hover as [Hset _]. now apply set_channels_nan_blanked in Hset.
    - unfold ret in Hover. injection Hover as _ <-. apply blanked_from_refl. }
  apply bind_ok in H as (cg & fs7 & _ & H).
  apply bind_ok in H as (bad & fs8 & _ & H).
  apply bind_ok in H as (b3 & fs9 & Hbad & H).
  assert (Hb3 : blanked_from b2 b3).
  { destruct bad.
    - apply lift_ok in Hbad as [Hset _]. now apply set_channels_nan_blanked in Hset.
    - unfold ret in Hbad. injection Hbad as _ <-. apply blanked_from_refl. }
  unfold ret in H. injection H as _ <-.
  eapply blanked_from_trans; [|exact Hb3].
  eapply blanked_from_trans; eassumption.
Qed.

Lemma first_pass_blanked (solutions : AOSolutions.t) (title : string)
    (plot_dir : option string) (flag_cut : float) (ref_ant : Z)
    (bandpass bandpass' : ndarray complex128) (fs fs' : filesystem) :
  first_pass solutions title plot_dir flag_cut ref_ant bandpass fs
  = (fs', Ok bandpass') ->
  blanked_from bandpass bandpass'.
Proof.
  unfold first_pass.
  apply (for_each_rel blanked_from); [apply blanked_from_refl|apply blanked_from_trans|].
  intros time b f f' b' _.
  apply (for_each_rel blanked_from); [apply blanked_from_refl|apply blanked_from_trans|].
  intros pol b0 f0 f0' b0' _ H.
  apply bind_ok in H as (ref_gains & f1 & _ & H).
  destruct (count_true _ =? 0); [discriminate|].
  revert H.
  apply (for_each_rel blanked_from); [apply blanked_from_refl|apply blanked_from_trans|].
  intros ant b1 f2 f2' b1' _. apply flag_cell_blanked.
Qed.

Lemma second_pass_blanked (solutions : AOSolutions.t) (ref_ant : Z)
    (bandpass bandpass' : ndarray complex128) (fs fs' : filesystem) :
  second_pass solutions ref_ant bandpass fs = (fs', Ok bandpass') ->
  blanked_from bandpass bandpass'.
Proof.
  unfold second_pass.
  apply (for_each_rel blanked_from); [apply blanked_from_refl|apply blanked_from_trans|].
  intros time b f f' b' _ H.
  apply bind_ok in H as (plane & f1 & _ & H). revert H.
  apply (for_each_rel blanked_from); [apply blanked_from_refl|apply blanked_from_trans|].
  intros ant b1 f2 f2' b1' _ H.
  destruct (ref_ant =? ant).
  { unfold ret in H. injection H as _ <-. apply blanked_from_refl. }
  apply bind_ok in H as (rg & f3 & _ & H).
  apply bind_ok in H as (g & f4 & _ & H).
  apply bind_ok in H as (xx & f5 & _ & H).
  apply bind_ok in H as (yy & f6 & _ & H).
  apply bind_ok in H as (bad & f7 & _ & H).
  destruct bad.
  - apply lift_ok in H as [Hset _]. now apply set_antenna_nan_blanked in Hset.
  - unfold ret in H. injection H as _ <-. apply blanked_from_refl.
Qed.

(** X11: the two flagging passes only blank. When a pass returns, the array
    has the shape and the number of elements it had, and every element is
    either the element that was there or NaN. *)
Theorem passes_only_blank (solutions : AOSolutions.t) (title : string)
    (plot_dir : option string) (flag_cut : float) (ref_ant : Z)
    (bandpass bandpass1 bandpass2 : ndarray complex128) (fs fs1 fs2 : filesystem) :
  first_pass solutions title plot_dir flag_cut ref_ant bandpass fs
  = (fs1, Ok bandpass1) ->
  second_pass solutions ref_ant bandpass1 fs1 = (fs2, Ok bandpass2) ->
  blanked_from bandpass bandpass1 /\ blanked_from bandpass bandpass2.
Proof.
  intros H1 H2.
  pose proof (first_pass_blanked _ _ _ _ _ _ _ _ _ H1) as B1.
  pose proof (second_pass_blanked _ _ _ _ _ _ H2) as B2.
  split; [exact B1|]. eapply blanked_from_trans; eassumption.
Qed.

End PassInvariants.

(** * The reference antenna is left alone *)

Lemma In_arange (n : nat) (x : Z) : In x (arange n) -> 0 <= x < Z.of_nat n.
Proof.
  unfold arange. intros H. apply in_map_iff in H as (k & <- & Hk).
  apply in_seq in Hk. lia.
Qed.

Lemma In_mask_select {A} (mask : list bool) (a : list A) (x : A) :
  In x (mask_select mask a) -> In x a.
Proof.
  revert a. induction mask as [|b mask IH]; intros [|y a] H;
    cbn [mask_select] in H; try contradiction.
  destruct b.
  - destruct H as [-> | H]; [now left|right; now apply IH].
  - right. now apply IH.
Qed.

Lemma lookup_blank_other (positions : list nat) (l : list complex128) (i : nat) :
  ~ In i positions -> blank positions l !! i = l !! i.
Proof.
  unfold blank. revert l. induction positions as [|j ps IH]; intros l H; [reflexivity|].
  cbn [fold_left]. rewrite IH by (intros Hin; apply H; now right).
  apply list_lookup_insert_ne. intros ->. apply H. now left.
Qed.

Lemma np_index_range (dim i k : Z) : np_index dim i = Ok k -> 0 <= k < dim.
Proof.
  unfold np_index.
  destruct (Z.leb_spec 0 i), (Z.ltb_spec i dim); cbn [andb];
    try (intros [= <-]; lia);
    destruct (Z.leb_spec (- dim) i), (Z.ltb_spec i 0); cbn [andb];
    try discriminate; intros [= <-]; lia.
Qed.

Lemma np_index_nonneg (dim i k : Z) : np_index dim i = Ok k -> 0 <= i -> k = i.
Proof.
  unfold np_index.
  destruct (Z.leb_spec 0 i), (Z.ltb_spec i dim); cbn [andb];
    try (intros [= <-]; lia);
    destruct (Z.leb_spec (- dim) i), (Z.ltb_spec i 0); cbn [andb];
    try discriminate; intros [= <-]; lia.
Qed.

Lemma quotient_unique (D x y k l : Z) :
  0 <= k < D -> 0 <= l < D -> x * D + k = y * D + l -> x = y.
Proof.
  intros Hk Hl H. nia.
Qed.

Lemma offset4_plane (d1 d2 d3 t a t' a' c' p' : Z) (k : nat) :
  0 <= t -> 0 <= t' -> 0 <= a < d1 -> 0 <= a' < d1 ->
  0 <= c' < d2 -> 0 <= p' < d3 -> (k < Z.to_nat (d2 * d3))%nat ->
  (offset4 d1 d2 d3 t a 0 0 + k)%nat = offset4 d1 d2 d3 t' a' c' p' -> a = a'.
Proof.
  intros Ht Ht' Ha Ha' Hc Hp Hk H. unfold offset4 in H.
  assert (HD : 0 < d2 * d3) by nia.
  assert (Hz : (t * d1 + a) * (d2 * d3) + Z.of_nat k
               = (t' * d1 + a') * (d2 * d3) + (c' * d3 + p')).
  { assert (Hx : 0 <= t * d1 + a) by nia.
    assert (Hy : 0 <= t' * d1 + a') by nia.
    assert (Hx2 : 0 <= (t * d1 + a) * d2) by nia.
    assert (Hy2 : 0 <= (t' * d1 + a') * d2 + c') by nia.
    assert (Hx3 : 0 <= ((t * d1 + a) * d2 + 0) * d3 + 0) by nia.
    assert (Hy3 : 0 <= ((t' * d1 + a') * d2 + c') * d3 + p') by nia.
    apply (f_equal Z.of_nat) in H. rewrite Nat2Z.inj_add in H.
    rewrite !Z2Nat.id in H by assumption. lia. }
  apply quotient_unique in Hz; [|lia|nia].
  assert (Ett : t = t') by (apply (quotient_unique d1 t t' a a'); lia).
  subst t'. lia.
Qed.

Lemma offset4_antenna (d1 d2 d3 t a c p t' a' c' p' : Z) :
  0 <= t -> 0 <= t' -> 0 <= a < d1 -> 0 <= a' < d1 ->
  0 <= c < d2 -> 0 <= c' < d2 -> 0 <= p < d3 -> 0 <= p' < d3 ->
  offset4 d1 d2 d3 t a c p = offset4 d1 d2 d3 t' a' c' p' -> a = a'.
Proof.
  intros Ht Ht' Ha Ha' Hc Hc' Hp Hp' H.
  apply (offset4_plane d1 d2 d3 t a t' a' c' p' (Z.to_nat (c * d3 + p)));
    try assumption; [nia|].
  rewrite <- H. unfold offset4.
  assert (Hx : 0 <= t * d1 + a) by nia.
  assert (Hx2 : 0 <= (t * d1 + a) * d2) by nia.
  assert (Hx3 : 0 <= ((t * d1 + a) * d2 + 0) * d3 + 0) by nia.
  assert (Hcp : 0 <= c * d3 + p) by nia.
  rewrite <- Z2Nat.inj_add by assumption. f_equal. lia.
Qed.

Lemma reference_kept_refl (ref_ant : Z) (a : ndarray complex128) :
  reference_kept ref_ant a a.
Proof.
  intros time pol. reflexivity.
Qed.

Lemma reference_kept_trans (ref_ant : Z) (a b c : ndarray complex128) :
  reference_kept ref_ant a b -> reference_kept ref_ant b c ->
  reference_kept ref_ant a c.
Proof.
  intros H1 H2 time pol. now rewrite H2, H1.
Qed.

Lemma blank_reference_kept (b : ndarray complex128) (positions : list nat)
    (ref_ant d0 d1 d2 d3 : Z) :
  shape b = [d0; d1; d2; d3] ->
  (forall t c p, 0 <= t < d0 -> 0 <= ref_ant < d1 -> 0 <= c < d2 -> 0 <= p < d3 ->
                 ~ In (offset4 d1 d2 d3 t ref_ant c p) positions) ->
  0 <= ref_ant ->
  reference_kept ref_ant b (NdArray (shape b) (blank positions (data b))).
Proof.
  intros Hshape Hfree Href time pol. unfold get_channels, dims4.
  cbn [shape data]. rewrite Hshape. cbn [rbind].
  destruct (np_index d0 time) as [t|] eqn:Et; [|reflexivity]. cbn [rbind].
  destruct (np_index d1 ref_ant) as [r|] eqn:Er; [|reflexivity]. cbn [rbind].
  destruct (np_index d3 pol) as [p|] eqn:Ep; [|reflexivity]. cbn [rbind].
  f_equal. apply map_ext_in. intros c Hc. unfold flat_get.
  rewrite lookup_blank_other; [reflexivity|].
  pose proof (np_index_range _ _ _ Er) as Hr.
  rewrite (np_index_nonneg _ _ _ Er Href) in *.
  apply Hfree.
  - exact (np_index_range _ _ _ Et).
  - exact Hr.
  - apply In_arange in Hc. lia.
  - exact (np_index_range _ _ _ Ep).
Qed.

Lemma set_masked_nan_reference_kept (a a' : ndarray complex128) (time ant : Z)
    (mask : list bool) (pol ref_ant : Z) :
  set_masked_nan a time ant mask pol = Ok a' ->
  0 <= ant -> 0 <= ref_ant -> ant <> ref_ant ->
  reference_kept ref_ant a a'.
Proof.
  unfold set_masked_nan, dims4.
  destruct (shape a) as [|d0 [|d1 [|d2 [|d3 [|]]]]] eqn:Hshape; try discriminate.
  cbn [rbind].
  destruct (np_index d0 time) as [t|] eqn:Et; [|discriminate]. cbn [rbind].
  destruct (np_index d1 ant) as [k|] eqn:Ea; [|discriminate]. cbn [rbind].
  destruct (np_index d3 pol) as [p|] eqn:Ep; [|discriminate]. cbn [rbind].
  destruct (negb _); [discriminate|]. intros [= <-] Hant Href Hne.
  rewrite <- Hshape. apply (blank_reference_kept a _ ref_ant d0 d1 d2 d3 Hshape);
    [|exact Href].
  intros t' c' p' Ht' Hr Hc' Hp' Hin.
  apply in_map_iff in Hin as (c & Heq & Hc).
  apply In_mask_select, In_arange in Hc.
  pose proof (np_index_range _ _ _ Ea) as Hk.
  rewrite (np_index_nonneg _ _ _ Ea Hant) in *.
  pose proof (np_index_range _ _ _ Et) as Ht.
  pose proof (np_index_range _ _ _ Ep) as Hp.
  apply Hne.
  apply (offset4_antenna d1 d2 d3 t ant c p t' ref_ant c' p');
    first [exact Heq | lia].
Qed.

Lemma set_channels_nan_reference_kept (a a' : ndarray complex128)
    (time ant pol ref_ant : Z) :
  set_channels_nan a time ant pol = Ok a' ->
  0 <= ant -> 0 <= ref_ant -> ant <> ref_ant ->
  reference_kept ref_ant a a'.
Proof.
  unfold set_channels_nan.
  destruct (dims4 a) as [[[[d0 d1] d2] d3]|]; [|discriminate]. cbn [rbind].
  apply set_masked_nan_reference_kept.
Qed.

Lemma set_antenna_nan_reference_kept (a a' : ndarray complex128)
    (time ant ref_ant : Z) :
  set_antenna_nan a time ant = Ok a' ->
  0 <= ant -> 0 <= ref_ant -> ant <> ref_ant ->
  reference_kept ref_ant a a'.
Proof.
  unfold set_antenna_nan, dims4.
  destruct (shape a) as [|d0 [|d1 [|d2 [|d3 [|]]]]] eqn:Hshape; try discriminate.
  cbn [rbind].
  destruct (np_index d0 time) as [t|] eqn:Et; [|discriminate]. cbn [rbind].
  destruct (np_index d1 ant) as [k|] eqn:Ea; [|discriminate]. cbn [rbind].
  intros [= <-] Hant Href Hne.
  rewrite <- Hshape. apply (blank_reference_kept a _ ref_ant d0 d1 d2 d3 Hshape);
    [|exact Href].
  intros t' c' p' Ht' Hr Hc' Hp' Hin.
  apply in_map_iff in Hin as (j & Heq & Hj). apply in_seq in Hj.
  pose proof (np_index_range _ _ _ Ea) as Hk.
  rewrite (np_index_nonneg _ _ _ Ea Hant) in *.
  pose proof (np_index_range _ _ _ Et) as Ht.
  apply Hne.
  apply (offset4_plane d1 d2 d3 t ant t' ref_ant c' p' j);
    first [exact Heq | lia].
Qed.

Section ReferenceAntenna.
Context {stats : Statistics} {num : Numerics} {plt : Plotting}
        {env : Collaborators}.

Lemma flag_cell_reference_kept (title : string) (plot_dir : option string)
    (flag_cut : float) (ref_ant time pol ant : Z)
    (bandpass bandpass' : ndarray complex128) (fs fs' : filesystem) :
  flag_cell title plot_dir flag_cut ref_ant time pol ant bandpass fs
  = (fs', Ok bandpass') ->
  0 <= ant -> 0 <= ref_ant ->
  reference_kept ref_ant bandpass bandpass'.
Proof.
  unfold flag_cell. destruct (Z.eqb_spec ant ref_ant) as [|Hne].
  { unfold ret. intros [= _ <-] _ _. apply reference_kept_refl. }
  intros H Hant Href.
  apply bind_ok in H as (ref_gains & fs1 & _ & H).
  apply bind_ok in H as (gains & fs2 & _ & H).
  destruct (count_true _ =? 0).
  { unfold ret in H. injection H as _ <-. apply reference_kept_refl. }
  apply bind_ok in H as (b1 & fs3 & Htry & H).
  assert (Hb1 : reference_kept ref_ant bandpass b1).
  { apply try_except_ok in Htry as [Hbody|(fs4 & _ & Hhandler)].
    - apply bind_ok in Hbody as (res & fs4 & _ & Hset).
      apply lift_ok in Hset as [Hset _].
      now apply (set_masked_nan_reference_kept _ _ _ _ _ _ ref_ant) in Hset.
    - apply lift_ok in Hhandler as [Hset _].
      now apply (set_channels_nan_reference_kept _ _ _ _ _ ref_ant) in Hset. }
  apply bind_ok in H as (current & fs4 & _ & H).
  apply bind_ok in H as (over & fs5 & _ & H).
  apply bind_ok in H as (b2 & fs6 & Hover & H).
  assert (Hb2 : reference_kept ref_ant b1 b2).
  { destruct over.
    - apply lift_ok in Hover as [Hset _].
      now apply (set_channels_nan_reference_kept _ _ _ _ _ ref_ant) in Hset.
    - unfold ret in Hover. injection Hover as _ <-. apply reference_kept_refl. }
  apply bind_ok in H as (cg & fs7 & _ & H).
  apply bind_ok in H as (bad & fs8 & _ & H).
  apply bind_ok in H as (b3 & fs9 & Hbad & H).
  assert (Hb3 : reference_kept ref_ant b2 b3).
  { destruct bad.
    - apply lift_ok in Hbad as [Hset _].
      now apply (set_channels_nan_reference_kept _ _ _ _ _ ref_ant) in Hset.
    - unfold ret in Hbad. injection Hbad as _ <-. apply reference_kept_refl. }
  unfold ret in H. injection H as _ <-.
  eapply reference_kept_trans; [|exact Hb3].
  eapply reference_kept_trans; eassumption.
Qed.

Lemma first_pass_reference_kept (solutions : AOSolutions.t) (title : string)
    (plot_dir : option string) (flag_cut : float) (ref_ant : Z)
    (bandpass bandpass' : ndarray complex128) (fs fs' : filesystem) :
  first_pass solutions title plot_dir flag_cut ref_ant bandpass fs
  = (fs', Ok bandpass') ->
  0 <= ref_ant ->
  reference_kept ref_ant bandpass bandpass'.
Proof.
  intros H Href. revert H. unfold first_pass.
  apply (for_each_rel (reference_kept ref_ant));
    [apply reference_kept_refl|apply reference_kept_trans|].
  intros time b f f' b' _.
  apply (for_each_rel (reference_kept ref_ant));
    [apply reference_kept_refl|apply reference_kept_trans|].
  intros pol b0 f0 f0' b0' _ H.
  apply bind_ok in H as (ref_gains & f1 & _ & H).
  destruct (count_true _ =? 0); [discriminate|].
  revert H.
  apply (for_each_rel (reference_kept ref_ant));
    [apply reference_kept_refl|apply reference_kept_trans|].
  intros ant b1 f2 f2' b1' Hant H. apply In_arange in Hant.
  apply (flag_cell_reference_kept _ _ _ _ _ _ _ _ _ _ _ H); lia.
Qed.

Lemma second_pass_reference_kept (solutions : AOSolutions.t) (ref_ant : Z)
    (bandpass bandpass' : ndarray complex128) (fs fs' : filesystem) :
  second_pass solutions ref_ant bandpass fs = (fs', Ok bandpass') ->
  0 <= ref_ant ->
  reference_kept ref_ant bandpass bandpass'.
Proof.
  intros H Href. revert H. unfold second_pass.
  apply (for_each_rel (reference_kept ref_ant));
    [apply reference_kept_refl|apply reference_kept_trans|].
  intros time b f f' b' _ H.
  apply bind_ok in H as (plane & f1 & _ & H). revert H.
  apply (for_each_rel (reference_kept ref_ant));
    [apply reference_kept_refl|apply reference_kept_trans|].
  intros ant b1 f2 f2' b1' Hant H. apply In_arange in Hant.
  destruct (Z.eqb_spec ref_ant ant) as [|Hne].
  { unfold ret in H. injection H as _ <-. apply reference_kept_refl. }
  apply bind_ok in H as (rg & f3 & _ & H).
  apply bind_ok in H as (g & f4 & _ & H).
  apply bind_ok in H as (xx & f5 & _ & H).
  apply bind_ok in H as (yy & f6 & _ & H).
  apply bind_ok in H as (bad & f7 & _ & H).
  destruct bad.
  - apply lift_ok in H as [Hset _].
    apply (set_antenna_nan_reference_kept _ _ _ _ ref_ant) in Hset;
      [exact Hset|lia|exact Href|congruence].
  - unfold ret in H. injection H as _ <-. apply reference_kept_refl.
Qed.

(** X12: neither flagging pass writes to the reference antenna. With a
    reference antenna index that is not negative, every gain of that antenna
    reads after the first pass, and after the second, as it read before. *)
Theorem passes_keep_reference_antenna (solutions : AOSolutions.t)
    (title : string) (plot_dir : option string) (flag_cut : float) (ref_ant : Z)
    (bandpass bandpass1 bandpass2 : ndarray complex128) (fs fs1 fs2 : filesystem) :
  0 <= ref_ant ->
  first_pass solutions title plot_dir flag_cut ref_ant bandpass fs
  = (fs1, Ok bandpass1) ->
  second_pass solutions ref_ant bandpass1 fs1 = (fs2, Ok bandpass2) ->
  forall time pol,
    get_channels bandpass1 time ref_ant pol = get_channels bandpass time ref_ant pol /\
    get_channels bandpass2 time ref_ant pol = get_channels bandpass time ref_ant pol.
Proof.
  intros Href H1 H2 time pol.
  pose proof (first_pass_reference_kept _ _ _ _ _ _ _ _ _ H1 Href) as K1.
  pose proof (second_pass_reference_kept _ _ _ _ _ _ H2 Href) as K2.
  split; [apply K1|]. rewrite K2. apply K1.
Qed.

End ReferenceAntenna.

(** * What the orchestration writes *)

Lemma reads_only_ret {A} (a : A) : reads_only (ret a).
Proof. intros fs. reflexivity. Qed.

Lemma reads_only_raise {A} (e : exn) : reads_only (@raise A e).
Proof. intros fs. reflexivity. Qed.

Lemma reads_only_lift {A} (r : result A) : reads_only (lift r).
Proof. intros fs. reflexivity. Qed.

Lemma reads_only_bind {A B} (m : M A) (k : A -> M B) :
  reads_only m -> (forall a, reads_only (k a)) -> reads_only (bind m k).
Proof.
  intros Hm Hk fs. unfold bind. specialize (Hm fs).
  destruct (m fs) as [fs1 [a|e]]; cbn [fst] in *; subst fs1; [apply Hk|reflexivity].
Qed.

Lemma reads_only_try_except {A} (body handler : M A) (cls : exn) :
  reads_only body -> reads_only handler -> reads_only (try_except body cls handler).
Proof.
  intros Hb Hh fs. unfold try_except. specialize (Hb fs).
  destruct (body fs) as [fs1 [a|e]]; cbn [fst] in *; subst fs1; [reflexivity|].
  destruct (exn_eqb e cls); [apply Hh|reflexivity].
Qed.

Lemma reads_only_for_each {A S} (xs : list A) (body : A -> S -> M S) (s : S) :
  (forall x s', reads_only (body x s')) -> reads_only (for_each xs body s).
Proof.
  intros H fs. apply for_each_fs. intros x s' fs'. apply H.
Qed.

Lemma load_reads_only (p : string) : reads_only (load_aosolutions_file p).
Proof.
  intros fs. unfold load_aosolutions_file.
  destruct (fs !! p) as [bs|]; [|reflexivity].
  destruct (fromfile_i4 2 bs) as [junk r1].
  destruct (fromfile_i4 10 r1) as [header r2]. reflexivity.
Qed.

Lemma writes_only_reads {A} (paths : list string) (m : M A) :
  reads_only m -> writes_only paths m.
Proof.
  intros H fs q _. now rewrite H.
Qed.

Lemma writes_only_bind {A B} (paths : list string) (m : M A) (k : A -> M B) :
  writes_only paths m -> (forall a, writes_only paths (k a)) ->
  writes_only paths (bind m k).
Proof.
  intros Hm Hk fs q Hq. unfold bind. specialize (Hm fs q Hq).
  destruct (m fs) as [fs1 [a|e]]; cbn [fst] in *; [|exact Hm].
  now rewrite Hk.
Qed.

Lemma save_writes_only (paths : list string) (x : AOSolutions.t) (p : string) :
  In p paths -> writes_only paths (save_aosolutions_file x p).
Proof.
  intros Hp fs q Hq. rewrite save_aosolutions_file_cases.
  assert (p <> q) by (intros ->; contradiction).
  destruct (packable x); cbn [fst]; now rewrite lookup_insert_ne.
Qed.

Section Frames.
Context {stats : Statistics} {num : Numerics} {plt : Plotting}
        {env : Collaborators}.

Lemma flag_outlier_phase_reads_only (complex_gains : list complex128)
    (flag_cut : float) (use_mad : bool) (plot_title : option string) :
  reads_only (flag_outlier_phase complex_gains flag_cut use_mad plot_title None).
Proof.
  unfold flag_outlier_phase.
  apply reads_only_bind; [apply reads_only_lift|]. intros [[init_p0 init_model] unwrapped].
  apply reads_only_bind; [apply reads_only_lift|]. intros results.
  destruct (phase_outlier_cut _ _ _) as [[mask m] s].
  apply reads_only_bind; [apply reads_only_ret|]. intros _. apply reads_only_ret.
Qed.

Lemma flag_cell_reads_only (title : string) (flag_cut : float)
    (ref_ant time pol ant : Z) (bandpass : ndarray complex128) :
  reads_only (flag_cell title None flag_cut ref_ant time pol ant bandpass).
Proof.
  unfold flag_cell. destruct (ant =? ref_ant); [apply reads_only_ret|].
  apply reads_only_bind; [apply reads_only_lift|]. intros ref_gains.
  apply reads_only_bind; [apply reads_only_lift|]. intros gains.
  destruct (count_true _ =? 0); [apply reads_only_ret|].
  apply reads_only_bind.
  { apply reads_only_try_except; [|apply reads_only_lift].
    apply reads_only_bind; [apply flag_outlier_phase_reads_only|].
    intros res. apply reads_only_lift. }
  intros b1.
  apply reads_only_bind; [apply reads_only_lift|]. intros current.
  apply reads_only_bind; [apply reads_only_lift|]. intros over.
  apply reads_only_bind;
    [destruct over; [apply reads_only_lift|apply reads_only_ret]|]. intros b2.
  apply reads_only_bind; [apply reads_only_lift|]. intros cg.
  apply reads_only_bind;
    [destruct (existsb _ _); [apply reads_only_lift|apply reads_only_ret]|].
  intros bad.
  apply reads_only_bind;
    [destruct bad; [apply reads_only_lift|apply reads_only_ret]|]. intros b3.
  apply reads_only_ret.
Qed.

Lemma first_pass_reads_only (solutions : AOSolutions.t) (title : string)
    (flag_cut : float) (ref_ant : Z) (bandpass : ndarray complex128) :
  reads_only (first_pass solutions title None flag_cut ref_ant bandpass).
Proof.
  unfold first_pass. apply reads_only_for_each. intros time b.
  apply reads_only_for_each. intros pol b0.
  apply reads_only_bind; [apply reads_only_lift|]. intros ref_gains.
  destruct (count_true _ =? 0); [apply reads_only_raise|].
  apply reads_only_for_each. intros ant b1. apply flag_cell_reads_only.
Qed.

Lemma second_pass_reads_only (solutions : AOSolutions.t) (ref_ant : Z)
    (bandpass : ndarray complex128) :
  reads_only (second_pass solutions ref_ant bandpass).
Proof.
  unfold second_pass. apply reads_only_for_each. intros time b.
  apply reads_only_bind; [apply reads_only_lift|]. intros plane.
  apply reads_only_for_each. intros ant b1.
  destruct (ref_ant =? ant); [apply reads_only_ret|].
  apply reads_only_bind; [apply reads_only_lift|]. intros rg.
  apply reads_only_bind; [apply reads_only_lift|]. intros g.
  apply reads_only_bind; [apply reads_only_lift|]. intros xx.
  apply reads_only_bind; [apply reads_only_lift|]. intros yy.
  apply reads_only_bind; [apply reads_only_lift|]. intros bad.
  destruct bad; [apply reads_only_lift|apply reads_only_ret].
Qed.

Lemma flag_and_save_writes_only (solutions_path : string) (ref_ant : Z)
    (flag_cut : float) (out_solutions_path : option string)
    (smooth_solutions : bool) :
  writes_only
    [get_aocalibrate_output_path solutions_path true false;
     get_aocalibrate_output_path solutions_path true true]
    (flag_and_save solutions_path ref_ant flag_cut None out_solutions_path
       smooth_solutions false).
Proof.
  unfold flag_and_save.
  apply writes_only_bind; [apply writes_only_reads, load_reads_only|]. intros solutions.
  apply writes_only_bind.
  { apply writes_only_reads.
    destruct (ref_ant <? 0); [apply reads_only_lift|apply reads_only_ret]. }
  intros ref.
  apply writes_only_bind; [apply writes_only_reads, reads_only_ret|]. intros plots.
  apply writes_only_bind; [apply writes_only_reads, first_pass_reads_only|]. intros b1.
  apply writes_only_bind; [apply writes_only_reads, second_pass_reads_only|]. intros b2.
  apply writes_only_bind; [apply save_writes_only; now left|]. intros _.
  apply writes_only_bind; [apply writes_only_reads, reads_only_ret|]. intros plots2.
  destruct smooth_solutions; [|apply writes_only_reads, reads_only_ret].
  apply writes_only_bind.
  { apply writes_only_reads, reads_only_for_each. intros time b.
    apply reads_only_bind; [apply reads_only_lift|]. intros plane.
    apply reads_only_bind; [apply reads_only_lift|]. intros cg.
    apply reads_only_bind; [apply reads_only_lift|]. intros sm.
    apply reads_only_lift. }
  intros b3.
  apply writes_only_bind; [apply save_writes_only; right; now left|]. intros _.
  apply writes_only_bind; [apply writes_only_reads, reads_only_ret|]. intros plots3.
  apply writes_only_reads, reads_only_ret.
Qed.

(** X13: without a plot directory and without plotting, [flag_aosolutions]
    changes no file other than the two solution files named after
    [solutions_path] (preflagged, and preflagged and smoothed), whether it
    returns or raises: a file at any other path, the input file included if
    its name differs, is as it was. *)
Theorem flag_aosolutions_writes_only_outputs (solutions_path : string)
    (ref_ant : Z) (flag_cut : float) (out_solutions_path : option string)
    (smooth_solutions : bool) (fs : filesystem) (q : string) :
  q <> get_aocalibrate_output_path solutions_path true false ->
  q <> get_aocalibrate_output_path solutions_path true true ->
  fst (flag_aosolutions solutions_path ref_ant flag_cut None out_solutions_path
         smooth_solutions false fs) !! q
  = fs !! q.
Proof.
  intros H1 H2.
  assert (Hw : writes_only
                 [get_aocalibrate_output_path solutions_path true false;
                  get_aocalibrate_output_path solutions_path true true]
                 (flag_aosolutions solutions_path ref_ant flag_cut None
                    out_solutions_path smooth_solutions false)).
  { unfold flag_aosolutions.
    apply writes_only_bind; [apply flag_and_save_writes_only|].
    intros [[b out] plots]. apply writes_only_reads.
    destruct (float_0_8 <? total_flagged b)%float;
      [apply reads_only_raise|apply reads_only_ret]. }
  apply Hw. cbn [In]. intros [E|[E|[]]]; congruence.
Qed.

End Frames.

(** * The orchestration end to end *)

Lemma count_true_none {A} (p : A -> bool) (l : list A) :
  existsb p l = false -> (count_true (map p l) =? 0) = true.
Proof.
  intros H. apply Z.eqb_eq. unfold count_true.
  induction l as [|x l IH]; [reflexivity|].
  cbn [existsb] in H. apply orb_false_iff in H as [Hx Hl].
  cbn [map List.filter]. rewrite Hx. now apply IH.
Qed.

Lemma arange_succ (n : nat) :
  arange (S n) = 0 :: map Z.of_nat (seq 1 n).
Proof.
  reflexivity.
Qed.

Lemma nan_c_valid : valid_element nan_c.
Proof.
  unfold valid_element, word64, nan_c, f64_nan. cbn [re im]. lia.
Qed.

Lemma blanked_from_valid (x : AOSolutions.t) (b : ndarray complex128) :
  valid_solutions x ->
  blanked_from (AOSolutions.bandpass x) b ->
  valid_solutions
    (AOSolutions.Build (AOSolutions.path x) (AOSolutions.nsol x) (AOSolutions.nant x)
       (AOSolutions.nchan x) (AOSolutions.npol x) b).
Proof.
  intros [H1 H2 H3 H4 Hshape Hsize Haddr Hwords] [Hs Hall].
  split; cbn [AOSolutions.nsol AOSolutions.nant AOSolutions.nchan AOSolutions.npol
              AOSolutions.bandpass]; try assumption.
  - now rewrite Hs.
  - rewrite Hs, <- Hsize. now rewrite (Forall2_length _ _ _ Hall).
  - now rewrite Hs.
  - clear -Hwords Hall. induction Hall as [|old new l k Hon _ IH]; [constructor|].
    inversion Hwords as [|? ? Hold Hrest]; subst.
    constructor; [|now apply IH].
    destruct Hon as [-> | ->]; [exact Hold|exact nan_c_valid].
Qed.

Section EndToEnd.
Context {stats : Statistics} {num : Numerics} {plt : Plotting}
        {env : Collaborators}.

(** X14: when the reference antenna given to [flag_aosolutions] has no
    finite XX gain in the first time solution, the run stops with
    [ValueError] before any cell is examined and before anything is
    written. *)
Theorem flag_aosolutions_bad_reference (solutions_path : string) (ref_ant : Z)
    (flag_cut : float) (plot_dir out_solutions_path : option string)
    (smooth_solutions : bool) (fs : filesystem) (solutions : AOSolutions.t)
    (ref_ant_gains : list complex128) :
  load_aosolutions_file solutions_path fs = (fs, Ok solutions) ->
  0 <= ref_ant ->
  1 <= AOSolutions.nsol solutions ->
  get_channels (AOSolutions.bandpass solutions) 0 ref_ant 0 = Ok ref_ant_gains ->
  existsb isfinite_c ref_ant_gains = false ->
  flag_aosolutions solutions_path ref_ant flag_cut plot_dir out_solutions_path
    smooth_solutions false fs
  = (fs, Err ValueError).
Proof.
  intros Hload Href Hnsol Hgains Hnone.
  unfold flag_aosolutions, flag_and_save.
  unfold bind at 1. unfold bind at 1. rewrite Hload.
  destruct (Z.ltb_spec ref_ant 0); [lia|].
  unfold bind at 1. unfold ret at 1.
  unfold bind at 1. unfold ret at 1.
  unfold bind at 1. unfold first_pass.
  destruct (Z.to_nat (AOSolutions.nsol solutions)) as [|k] eqn:Ek; [lia|].
  rewrite arange_succ. cbn [for_each].
  unfold bind at 1. unfold bind at 1. unfold bind at 1. unfold lift at 1.
  rewrite Hgains, (count_true_none _ _ Hnone). reflexivity.
Qed.

(** X15: without smoothing and without the plots of whole solutions, the
    file [flag_aosolutions] has saved can be read back: loading the path the
    flagging stage returns gives the header extents of the input and exactly
    the flagged array. The input is taken to be a well-formed solution
    set. *)
Theorem flagged_file_loads_back (solutions_path : string) (ref_ant : Z)
    (flag_cut : float) (plot_dir out_solutions_path : option string)
    (fs fs0 fs' : filesystem) (solutions : AOSolutions.t)
    (bandpass : ndarray complex128) (out : string) (plots : list string) :
  load_aosolutions_file solutions_path fs = (fs0, Ok solutions) ->
  valid_solutions solutions ->
  flag_and_save solutions_path ref_ant flag_cut plot_dir out_solutions_path
    false false fs
  = (fs', Ok (bandpass, out, plots)) ->
  blanked_from (AOSolutions.bandpass solutions) bandpass /\
  load_aosolutions_file out fs'
  = (fs', Ok (AOSolutions.Build out (AOSolutions.nsol solutions)
                (AOSolutions.nant solutions) (AOSolutions.nchan solutions)
                (AOSolutions.npol solutions) bandpass)).
Proof.
  intros Hload Hvalid H. unfold flag_and_save in H.
  apply bind_ok in H as (solutions' & fs1 & Hload' & H).
  rewrite Hload in Hload'. injection Hload' as -> <-.
  apply bind_ok in H as (ref & fs2 & _ & H).
  apply bind_ok in H as (plots1 & fs3 & _ & H).
  apply bind_ok in H as (bandpass1 & fs4 & Hfirst & H).
  apply bind_ok in H as (bandpass2 & fs5 & Hsecond & H).
  apply bind_ok in H as (saved & fs6 & Hsave & H).
  apply bind_ok in H as (plots2 & fs7 & Hplots2 & H).
  unfold ret in H, Hplots2. injection Hplots2 as <- _. injection H as <- <- <- _.
  apply first_pass_blanked in Hfirst. apply second_pass_blanked in Hsecond.
  pose proof (blanked_from_trans _ _ _ Hfirst Hsecond) as Hblank.
  split; [exact Hblank|].
  apply save_aosolutions_file_inv in Hsave as [_ ->].
  pose proof (blanked_from_valid solutions bandpass2 Hvalid Hblank) as Hvalid2.
  apply (load_file_image _ _ _ Hvalid2). apply lookup_insert_eq.
Qed.

(** X16: as the source stands, a cell that enters the per-cell stages with
    some finite normalised gain leaves [flag_cell] normally only with every
    channel blanked: a cell with a finite channel left reaches
    [flag_mean_residual_amplitude], whose call of [np.polyfit] raises
    [TypeError]. *)
Theorem flag_cell_leaves_no_finite_channel (title : string)
    (plot_dir : option string) (flag_cut : float) (ref_ant time pol ant : Z)
    (bandpass bandpass' : ndarray complex128) (fs fs' : filesystem)
    (ref_ant_gains gains : list complex128) :
  flag_cell title plot_dir flag_cut ref_ant time pol ant bandpass fs
  = (fs', Ok bandpass') ->
  (ant =? ref_ant) = false ->
  get_channels bandpass time ref_ant pol = Ok ref_ant_gains ->
  get_channels bandpass time ant pol = Ok gains ->
  existsb isfinite_c (zip_with c_div gains ref_ant_gains) = true ->
  exists gains',
    get_channels bandpass' time ant pol = Ok gains' /\
    existsb isfinite_c gains' = false.
Proof.
  intros H Hant Href Hgains Hfinite. unfold flag_cell in H. rewrite Hant in H.
  apply bind_ok in H as (rg & fs1 & Hrg & H).
  apply bind_ok in H as (g & fs2 & Hg & H).
  apply lift_ok in Hrg as [Hrg ->]. apply lift_ok in Hg as [Hg ->].
  rewrite Href in Hrg. injection Hrg as <-.
  rewrite Hgains in Hg. injection Hg as <-.
  rewrite (count_true_existsb _ _ Hfinite) in H.
  apply bind_ok in H as (b1 & fs3 & _ & H).
  apply bind_ok in H as (current & fs4 & _ & H).
  apply bind_ok in H as (over & fs5 & _ & H).
  apply bind_ok in H as (b2 & fs6 & _ & H).
  apply bind_ok in H as (cg & fs7 & Hcg & H).
  apply lift_ok in Hcg as [Hcg ->].
  apply bind_ok in H as (bad & fs8 & Hbad & H).
  destruct (existsb isfinite_c cg) eqn:Ecg.
  - apply lift_ok in Hbad as [Hbad _].
    assert (Hraise : flag_mean_residual_amplitude cg true 5 = Err TypeError)
      by reflexivity.
    rewrite Hraise in Hbad. discriminate.
  - unfold ret in Hbad. injection Hbad as _ <-.
    apply bind_ok in H as (b3 & fs9 & Hb3 & H).
    unfold ret in Hb3, H. injection Hb3 as _ <-. injection H as _ <-.
    exists cg. split; assumption.
Qed.

End EndToEnd.

(** * The flagging task of the bandpass pipeline *)

Section PipelineProperties.
Context {stats : Statistics} {num : Numerics} {plt : Plotting}
        {env : Collaborators}.
Variable MS : Type.
Variable ms_path_of : MS -> string.
Variable path_parent : string -> string.
Variable upload_image_as_artifact : string -> string -> M unit.

(** X17: when [task_flag_solutions] returns, the command it returns points
    to the smoothed solution file, the file named after the input solution
    path with both the preflagger and the smoother suffix, and is marked as
    preflagged; the command line, the measurement set and the model are those
    of the command it was given. *)
Theorem task_flag_solutions_selects_smoothed (calibrate_cmd flagged_cmd : CalibrateCommand.t MS)
    (fs fs' : filesystem) :
  task_flag_solutions MS ms_path_of path_parent upload_image_as_artifact calibrate_cmd fs
  = (fs', Ok flagged_cmd) ->
  CalibrateCommand.solution_path flagged_cmd
  = get_aocalibrate_output_path (CalibrateCommand.solution_path calibrate_cmd) true true /\
  CalibrateCommand.preflagged flagged_cmd = true /\
  CalibrateCommand.cmd flagged_cmd = CalibrateCommand.cmd calibrate_cmd /\
  CalibrateCommand.ms flagged_cmd = CalibrateCommand.ms calibrate_cmd /\
  CalibrateCommand.model flagged_cmd = CalibrateCommand.model calibrate_cmd.
Proof.
  unfold task_flag_solutions. intros H.
  apply bind_ok in H as (flagged & fs1 & Hflag & H).
  apply bind_ok in H as (u & fs2 & _ & H).
  unfold ret in H. injection H as _ <-.
  unfold flag_aosolutions in Hflag.
  apply bind_ok in Hflag as ([[bandpass out] plots] & fs3 & Hsave & Hflag).
  destruct (float_0_8 <? total_flagged bandpass)%float; [discriminate|].
  unfold ret in Hflag. injection Hflag as _ <-.
  apply flag_and_save_ok in Hsave as [-> _].
  repeat split.
Qed.

End PipelineProperties.

(** * Worked instances *)

Lemma two_antennas_valid : valid_solutions two_antennas.
Proof.
  split; unfold extent; cbn; try lia; try reflexivity.
  repeat (constructor; [exact unit_gain_valid|]). constructor.
Defined.

Lemma load_returns_valid_witness :
  load_aosolutions_file "cal.bin" (disk_with single_antenna)
  = (disk_with single_antenna, Ok single_antenna) /\
  valid_solutions single_antenna.
Proof.
  assert (H : load_aosolutions_file "cal.bin" (disk_with single_antenna)
              = (disk_with single_antenna, Ok single_antenna))
    by (vm_compute; reflexivity).
  split; [exact H|].
  apply (load_returns_valid "cal.bin" (disk_with single_antenna)
           (disk_with single_antenna) single_antenna H).
  - intros bs Hbs. vm_compute in Hbs. injection Hbs as <-. vm_compute. reflexivity.
  - cbn. lia.
  - cbn. lia.
  - cbn. lia.
  - cbn. lia.
Defined.

Lemma load_truncated_witness :
  fst (load_aosolutions_file "cal.bin" truncated_disk) = truncated_disk /\
  forall loaded, snd (load_aosolutions_file "cal.bin" truncated_disk) <> Ok loaded.
Proof.
  apply (load_truncated single_antenna "cal.bin" truncated_disk (c16_bytes unit_gain)).
  - cbn. lia.
  - cbn. lia.
  - cbn. lia.
  - cbn. lia.
  - vm_compute. reflexivity.
  - vm_compute. reflexivity.
Defined.

Lemma load_ignores_trailing_bytes_witness :
  load_aosolutions_file "cal.bin" padded_disk
  = (padded_disk,
     Ok (AOSolutions.Build "cal.bin" 1 1 2 4 (AOSolutions.bandpass single_antenna))).
Proof.
  apply (load_ignores_trailing_bytes single_antenna "cal.bin" padded_disk [x00]
           single_antenna_valid).
  vm_compute. reflexivity.
Defined.

Lemma save_failure_truncates_witness :
  save_aosolutions_file oversized "cal.bin" (disk_with single_antenna)
  = (<["cal.bin"%string := []]> (disk_with single_antenna), Err StructError) /\
  fst (save_aosolutions_file oversized "cal.bin" (disk_with single_antenna))
    !! "cal.bin"%string = Some [].
Proof.
  apply (save_failure_truncates oversized "cal.bin" (disk_with single_antenna)).
  vm_compute. reflexivity.
Defined.

Lemma save_writes_one_file_witness :
  fst (save_aosolutions_file two_antennas "out.bin" (disk_with single_antenna))
    !! "cal.bin"%string
  = disk_with single_antenna !! "cal.bin"%string.
Proof.
  apply (proj1 (save_writes_one_file two_antennas single_antenna "out.bin" "cal.bin"
                  (disk_with single_antenna))).
  vm_compute. intros H. discriminate H.
Defined.

Lemma select_refant_single_epoch_max_witness :
  exists k,
    select_refant three_antennas = Ok k /\ 0 <= k < 3 /\
    forall a, 0 <= a < 3 ->
      finite_in_antenna three_antennas a <= finite_in_antenna three_antennas k /\
      (a < k -> finite_in_antenna three_antennas a < finite_in_antenna three_antennas k).
Proof.
  apply (select_refant_single_epoch_max three_antennas 3 1 2).
  - reflexivity.
  - lia.
  - lia.
  - lia.
Defined.

Lemma select_refant_errors_witness :
  select_refant (NdArray [2; 2] (replicate 4 unit_gain)) = Err AssertionError /\
  select_refant (NdArray [0; 3; 1; 2] []) = Err ValueError.
Proof.
  split.
  - apply (proj1 (select_refant_errors (NdArray [2; 2] (replicate 4 unit_gain)))).
    vm_compute. intros H. discriminate H.
  - apply (proj2 (select_refant_errors (NdArray [0; 3; 1; 2] [])) 0 3 1 2).
    + reflexivity.
    + lia.
Defined.

Lemma flags_over_threshold_empty_witness :
  flags_over_threshold (NdArray [0] []) float_0_8 (Some 0) = Ok false.
Proof.
  apply (flags_over_threshold_empty (NdArray [0] []) float_0_8 0).
  - vm_compute. reflexivity.
  - vm_compute. reflexivity.
  - reflexivity.
  - reflexivity.
Defined.

Lemma flag_outlier_phase_aligned_witness :
  length (PhaseOutlierResults.outlier_mask unit_gain_result) = 2%nat /\
  length (PhaseOutlierResults.init_model_gains unit_gain_result) = 2%nat /\
  length (PhaseOutlierResults.fit_model_gains unit_gain_result) = 2%nat.
Proof.
  apply (@flag_outlier_phase_aligned sequential_statistics exact_fit_numerics
           no_plotting [unit_gain; unit_gain] 3%float false None None ∅ ∅
           unit_gain_result).
  vm_compute. reflexivity.
Defined.

Lemma flag_outlier_phase_no_finite_gain_witness :
  @flag_outlier_phase sequential_statistics exact_fit_numerics no_plotting
    [nan_c; nan_c] 3%float false None None ∅
  = (∅, Err IndexError).
Proof.
  apply (@flag_outlier_phase_no_finite_gain sequential_statistics exact_fit_numerics
           no_plotting [nan_c; nan_c] 3%float false None None ∅).
  vm_compute. reflexivity.
Defined.

Lemma passes_only_blank_witness :
  blanked_from (AOSolutions.bandpass two_antennas) two_antennas_flagged.
Proof.
  assert (H1 : @first_pass sequential_statistics exact_fit_numerics no_plotting
                 plain_collaborators two_antennas "cal.bin" None 3%float 0
                 (AOSolutions.bandpass two_antennas) ∅
               = (∅, Ok two_antennas_flagged)) by (vm_compute; reflexivity).
  assert (H2 : @second_pass exact_fit_numerics plain_collaborators two_antennas 0
                 two_antennas_flagged ∅
               = (∅, Ok two_antennas_flagged)) by (vm_compute; reflexivity).
  apply (@passes_only_blank sequential_statistics exact_fit_numerics no_plotting
           plain_collaborators _ _ _ _ _ _ _ _ _ _ _ H1 H2).
Defined.

Lemma passes_keep_reference_antenna_witness :
  get_channels two_antennas_flagged 0 0 3
  = get_channels (AOSolutions.bandpass two_antennas) 0 0 3.
Proof.
  assert (H0 : 0 <= 0) by lia.
  assert (H1 : @first_pass sequential_statistics exact_fit_numerics no_plotting
                 plain_collaborators two_antennas "cal.bin" None 3%float 0
                 (AOSolutions.bandpass two_antennas) ∅
               = (∅, Ok two_antennas_flagged)) by (vm_compute; reflexivity).
  assert (H2 : @second_pass exact_fit_numerics plain_collaborators two_antennas 0
                 two_antennas_flagged ∅
               = (∅, Ok two_antennas_flagged)) by (vm_compute; reflexivity).
  apply (@passes_keep_reference_antenna sequential_statistics exact_fit_numerics
           no_plotting plain_collaborators _ _ _ _ _ _ _ _ _ _ _ H0 H1 H2 0 3).
Defined.

Lemma flag_aosolutions_writes_only_outputs_witness :
  fst (@flag_aosolutions sequential_statistics exact_fit_numerics no_plotting
         plain_collaborators "cal.bin" (-1) 3%float None None true false
         (disk_with two_antennas)) !! "cal.bin"%string
  = disk_with two_antennas !! "cal.bin"%string.
Proof.
  apply (@flag_aosolutions_writes_only_outputs sequential_statistics
           exact_fit_numerics no_plotting plain_collaborators "cal.bin" (-1)
           3%float None true (disk_with two_antennas) "cal.bin").
  - vm_compute. intros H. discriminate H.
  - vm_compute. intros H. discriminate H.
Defined.

Lemma flag_aosolutions_bad_reference_witness :
  @flag_aosolutions sequential_statistics exact_fit_numerics no_plotting
    plain_collaborators "cal.bin" 1 3%float None None false false
    (disk_with two_epochs_on_disk)
  = (disk_with two_epochs_on_disk, Err ValueError).
Proof.
  apply (@flag_aosolutions_bad_reference sequential_statistics exact_fit_numerics
           no_plotting plain_collaborators "cal.bin" 1 3%float None None false
           (disk_with two_epochs_on_disk) two_epochs_on_disk [nan_c]).
  - vm_compute. reflexivity.
  - lia.
  - cbn. lia.
  - reflexivity.
  - reflexivity.
Defined.

Lemma flagged_file_loads_back_witness :
  exists fs',
    @flag_and_save sequential_statistics exact_fit_numerics no_plotting
      plain_collaborators "cal.bin" (-1) 3%float None None false false
      (disk_with two_antennas)
    = (fs', Ok (two_antennas_flagged, "cal.bin.preflagged"%string, [])) /\
    load_aosolutions_file "cal.bin.preflagged" fs'
    = (fs', Ok (AOSolutions.Build "cal.bin.preflagged" 1 2 2 4 two_antennas_flagged)).
Proof.
  eexists. split.
  - vm_compute. reflexivity.
  - refine (proj2 (@flagged_file_loads_back sequential_statistics
                     exact_fit_numerics no_plotting plain_collaborators "cal.bin"
                     (-1) 3%float None None (disk_with two_antennas)
                     (disk_with two_antennas) _ two_antennas two_antennas_flagged
                     "cal.bin.preflagged" [] _ two_antennas_valid _)).
    + vm_compute. reflexivity.
    + vm_compute. reflexivity.
Defined.

Lemma flag_cell_leaves_no_finite_channel_witness :
  exists gains',
    get_channels two_antennas_xx_flagged 0 1 0 = Ok gains' /\
    existsb isfinite_c gains' = false.
Proof.
  apply (@flag_cell_leaves_no_finite_channel sequential_statistics
           exact_fit_numerics no_plotting plain_collaborators "cal.bin" None
           3%float 0 0 0 1 (AOSolutions.bandpass two_antennas)
           two_antennas_xx_flagged ∅ ∅ [unit_gain; unit_gain]
           [unit_gain; unit_gain]).
  - vm_compute. reflexivity.
  - reflexivity.
  - reflexivity.
  - reflexivity.
  - reflexivity.
Defined.

Lemma task_flag_solutions_selects_smoothed_witness :
  exists fs',
    @task_flag_solutions sequential_statistics exact_fit_numerics no_plotting
      plain_collaborators string (fun p => p) (fun _ => "data"%string)
      (fun _ _ => ret tt) two_antennas_command (disk_with two_antennas)
    = (fs', Ok (CalibrateCommand.Build "calibrate" "cal.bin.preflagged.smoothed"
                  "data/beam0.ms" "model.txt" true)) /\
    CalibrateCommand.solution_path
      (CalibrateCommand.Build "calibrate" "cal.bin.preflagged.smoothed"
         "data/beam0.ms" "model.txt" true)
    = "cal.bin.preflagged.smoothed"%string.
Proof.
  eexists. split.
  - vm_compute. reflexivity.
  - refine (proj1 (@task_flag_solutions_selects_smoothed sequential_statistics
                     exact_fit_numerics no_plotting plain_collaborators string
                     (fun p => p) (fun _ => "data"%string) (fun _ _ => ret tt)
                     two_antennas_command _ (disk_with two_antennas) _ _)).
    vm_compute. reflexivity.
Defined.
